(** * apexpro [HttpPrivate]: request signing, key derivation and onboarding

    A shallow embedding of [src/apexpro/http_private.py].

    Conventions of the embedding.
    - A Python [str] is a Rocq [string] holding the UTF-8 bytes of the text,
      so [s.encode('utf-8')] is [list_byte_of_string s], concatenation is
      [++] and the order of [str] (by code point) is the bytewise
      order [String.compare].
    - [bytes] are [list byte].
    - A [dict] is an association list in insertion order whose keys are
      pairwise distinct ([dict_wf]).
    - Exceptions are values of [exn]; a call either returns or raises
      ([result]).
    - Calls to collaborators that are not part of this file (the wallet
      signers, web3, the transport, the helpers of the package) go through
      the [Collaborators] interface and the signer fields of the client. *)

From Stdlib Require Import ZArith List String Ascii Bool Lia.
From Stdlib Require Import Init.Byte Strings.Byte.
From Stdlib Require Import Sorting.Sorted Sorting.Permutation.
From Stdlib Require Import Numbers.DecimalString Numbers.HexadecimalString.
From Stdlib Require Import Numbers.HexadecimalPos Numbers.HexadecimalN.
From Stdlib Require Import Structures.OrderedTypeEx.
From Bignums Require Import BigZ.
Import ListNotations.

Local Open Scope string_scope.
Local Open Scope list_scope.

(** ** Python values and built-ins *)

Module Py.

(** The scalar values that travel in request parameters and headers.
    Floats are left out of the model. *)
Inductive value : Type :=
| None_
| Str (s : string)
| Int (z : Z)
| Bool_ (b : bool).

Definition is_None (v : value) : bool :=
  match v with None_ => true | _ => false end.

(** Truth value of an object, as used by [or]. *)
Definition truthy (v : value) : bool :=
  match v with
  | None_ => false
  | Str s => negb (s =? "")
  | Int z => negb (z =? 0)%Z
  | Bool_ b => b
  end.

(** [a or b] *)
Definition or_ (a b : value) : value := if truthy a then a else b.

(** [str(v)], which is also what [format] inserts for a bare [{name}]. *)
Definition str (v : value) : string :=
  match v with
  | None_ => "None"
  | Str s => s
  | Int z => DecimalString.NilZero.string_of_int (Z.to_int z)
  | Bool_ true => "True"
  | Bool_ false => "False"
  end.

(** A dictionary with [str] keys: its items in insertion order. *)
Definition dict : Type := list (string * value).

Definition dict_wf (d : dict) : Prop := NoDup (map fst d).

(** [sorted(items, key=lambda x: x[0], reverse=False)].  Python's sort is
    stable and compares keys with [<] only; [insert_item] puts the new
    item in front of the first item whose key is not smaller, so items
    with equal keys keep their order. *)
Fixpoint insert_item (x : string * value) (l : list (string * value))
  : list (string * value) :=
  match l with
  | [] => [x]
  | y :: l' =>
      if (fst y <? fst x)%string then y :: insert_item x l' else x :: y :: l'
  end.

Fixpoint sorted_by_key (l : list (string * value)) : list (string * value) :=
  match l with
  | [] => []
  | x :: l' => insert_item x (sorted_by_key l')
  end.

(** [sep.join(parts)] *)
Definition join (sep : string) (parts : list string) : string :=
  String.concat sep parts.

(** [s.upper()] on ASCII text: the letters [a] to [z] are raised, every
    other byte is kept.  On text outside ASCII [str.upper] does more. *)
Definition upper_char (c : ascii) : ascii :=
  let n := N_of_ascii c in
  if ((97 <=? n) && (n <=? 122))%N then ascii_of_N (n - 32) else c.

Fixpoint upper (s : string) : string :=
  match s with
  | EmptyString => EmptyString
  | String c s' => String (upper_char c) (upper s')
  end.

(** *** [int(text, 16)]

    The literal may be surrounded by whitespace, carry a sign and a
    [0x] prefix, and hold single underscores between digits (one may
    follow the prefix). *)

Definition is_space (c : ascii) : bool :=
  let n := N_of_ascii c in
  (((9 <=? n) && (n <=? 13)) || (n =? 32))%N.

Fixpoint lstrip (s : list ascii) : list ascii :=
  match s with
  | c :: s' => if is_space c then lstrip s' else s
  | [] => []
  end.

Definition strip (s : list ascii) : list ascii :=
  rev (lstrip (rev (lstrip s))).

Definition digit16 (c : ascii) : option Z :=
  let n := Z.of_N (N_of_ascii c) in
  if ((48 <=? n) && (n <=? 57))%Z then Some (n - 48)%Z
  else if ((97 <=? n) && (n <=? 102))%Z then Some (n - 87)%Z
  else if ((65 <=? n) && (n <=? 70))%Z then Some (n - 55)%Z
  else None.

Fixpoint digits16 (after_underscore : bool) (acc : Z) (s : list ascii)
  : option Z :=
  match s with
  | [] => if after_underscore then None else Some acc
  | c :: s' =>
      if (c =? "_")%char
      then if after_underscore then None else digits16 true acc s'
      else match digit16 c with
           | Some d => digits16 false (16 * acc + d)%Z s'
           | None => None
           end
  end.

Definition int16_digits (s : list ascii) : option Z :=
  match s with
  | [] => None
  | c :: _ => if (c =? "_")%char then None else digits16 false 0%Z s
  end.

Definition skip_sign (s : list ascii) : bool * list ascii :=
  match s with
  | c :: s' =>
      if (c =? "-")%char then (true, s')
      else if (c =? "+")%char then (false, s')
      else (false, s)
  | [] => (false, s)
  end.

Definition skip_prefix16 (s : list ascii) : list ascii :=
  match s with
  | c0 :: c1 :: s' =>
      if ((c0 =? "0") && ((c1 =? "x") || (c1 =? "X")))%char
      then match s' with
           | c2 :: s'' => if (c2 =? "_")%char then s'' else s'
           | [] => s'
           end
      else s
  | _ => s
  end.

(** Before it parses, [int] turns each character outside ASCII into a
    space when it is Unicode whitespace, into the ASCII digit of its value
    when it is a Unicode decimal digit, and into [?] otherwise.  The text
    being held as UTF-8 bytes, the characters are decoded first; bytes
    that are not UTF-8 decode to the invalid code point [-1]. *)

Definition continuation (b : Z) : bool := ((0x80 <=? b) && (b <? 0xC0))%Z.

Fixpoint utf8_decode (l : list Z) : list Z :=
  match l with
  | [] => []
  | b0 :: r =>
      if (b0 <? 0x80)%Z then b0 :: utf8_decode r
      else if ((0xC2 <=? b0) && (b0 <? 0xE0))%Z then
        match r with
        | b1 :: r1 =>
            if continuation b1 then
              (Z.land b0 0x1F * 64 + Z.land b1 0x3F)%Z :: utf8_decode r1
            else (-1)%Z :: utf8_decode r
        | [] => [(-1)%Z]
        end
      else if ((0xE0 <=? b0) && (b0 <? 0xF0))%Z then
        match r with
        | b1 :: b2 :: r2 =>
            let cp := (Z.land b0 0x0F * 4096 + Z.land b1 0x3F * 64 +
                       Z.land b2 0x3F)%Z in
            if (continuation b1 && continuation b2 && (0x800 <=? cp)%Z &&
                negb ((0xD800 <=? cp) && (cp <? 0xE000))%Z)
            then cp :: utf8_decode r2
            else (-1)%Z :: utf8_decode r
        | _ => (-1)%Z :: utf8_decode r
        end
      else if ((0xF0 <=? b0) && (b0 <? 0xF5))%Z then
        match r with
        | b1 :: b2 :: b3 :: r3 =>
            let cp := (Z.land b0 0x07 * 262144 + Z.land b1 0x3F * 4096 +
                       Z.land b2 0x3F * 64 + Z.land b3 0x3F)%Z in
            if (continuation b1 && continuation b2 && continuation b3 &&
                (0x10000 <=? cp)%Z && (cp <? 0x110000)%Z)
            then cp :: utf8_decode r3
            else (-1)%Z :: utf8_decode r
        | _ => (-1)%Z :: utf8_decode r
        end
      else (-1)%Z :: utf8_decode r
  end.

(** Whitespace outside ASCII ([str.isspace]). *)
Definition unicode_space (cp : Z) : bool :=
  existsb (Z.eqb cp)
    [0x85; 0xA0; 0x1680; 0x2028; 0x2029; 0x202F; 0x205F; 0x3000]%Z
  || ((0x2000 <=? cp) && (cp <=? 0x200A))%Z.

(** First code point of each run of ten decimal digits (Unicode 14). *)
Definition decimal_zeros : list Z :=
  [ 0x660; 0x6F0; 0x7C0; 0x966; 0x9E6; 0xA66; 0xAE6; 0xB66; 0xBE6; 0xC66;
    0xCE6; 0xD66; 0xDE6; 0xE50; 0xED0; 0xF20; 0x1040; 0x1090; 0x17E0;
    0x1810; 0x1946; 0x19D0; 0x1A80; 0x1A90; 0x1B50; 0x1BB0; 0x1C40; 0x1C50;
    0xA620; 0xA8D0; 0xA900; 0xA9D0; 0xA9F0; 0xAA50; 0xABF0; 0xFF10; 0x104A0;
    0x10D30; 0x11066; 0x110F0; 0x11136; 0x111D0; 0x112F0; 0x11450; 0x114D0;
    0x11650; 0x116C0; 0x11730; 0x118E0; 0x11950; 0x11C50; 0x11D50; 0x11DA0;
    0x16A60; 0x16AC0; 0x16B50; 0x1D7CE; 0x1D7D8; 0x1D7E2; 0x1D7EC; 0x1D7F6;
    0x1E140; 0x1E2F0; 0x1E950; 0x1FBF0 ]%Z.

Definition unicode_decimal (cp : Z) : option Z :=
  match find (fun z => ((z <=? cp) && (cp <=? z + 9))%Z) decimal_zeros with
  | Some z => Some (cp - z)%Z
  | None => None
  end.

Definition to_ascii (cp : Z) : ascii :=
  if ((0 <=? cp) && (cp <? 127))%Z then ascii_of_N (Z.to_N cp)
  else if unicode_space cp then " "%char
  else match unicode_decimal cp with
       | Some d => ascii_of_N (Z.to_N (48 + d))
       | None => "?"%char
       end.

Definition all_ascii (l : list ascii) : bool :=
  forallb (fun c => (N_of_ascii c <? 128)%N) l.

(** ASCII text is parsed as it is; other text character by character
    through [to_ascii]. *)
Definition decimal_and_space_to_ascii (l : list ascii) : list ascii :=
  if all_ascii l then l
  else map to_ascii (utf8_decode (map (fun c => Z.of_N (N_of_ascii c)) l)).

Definition int16 (text : string) : option Z :=
  let s := strip (decimal_and_space_to_ascii (list_ascii_of_string text)) in
  let (negative, s) := skip_sign s in
  match int16_digits (skip_prefix16 s) with
  | Some n => Some (if negative then (- n)%Z else n)
  | None => None
  end.

(** [hex(n)] *)
Definition hex (n : Z) : string :=
  (if (n <? 0)%Z then "-0x" else "0x") ++
  HexadecimalString.NilZero.string_of_uint (N.to_hex_uint (Z.abs_N n)).

End Py.

(** ** Request signing: the parameter string *)

Module Canonical.
Import Py.

(** ['{key}={value}'.format(key=x[0], value=x[1])] *)
Definition format_item (x : string * value) : string :=
  fst x ++ "=" ++ str (snd x).

Definition not_None (x : string * value) : bool := negb (is_None (snd x)).

(** Lines 70-72 of [sign]: sort all items by key, then join the formatted
    items whose value is not [None]. *)
Definition dataString (data : dict) : string :=
  let sortedItems := sorted_by_key data in
  join "&" (map format_item (filter not_None sortedItems)).

(** The canonical query string in the words of the specification:
    discard the entries whose value is null, sort what remains by key,
    join as [key=value] with [&]. *)
Definition canonical_query_string (params : dict) : string :=
  join "&"
    (map (fun entry : string * value =>
            (fst entry ++ "=" ++ str (snd entry))%string)
         (sorted_by_key (filter not_None params))).

(** [x] comes no later than [y] in the order of the keys. *)
Definition key_le (x y : string * value) : Prop :=
  (fst y <? fst x)%string = false.

End Canonical.

(** ** The standard library calls made by [sign]

    [base64.standard_b64encode] (RFC 4648), [hashlib.sha256] (FIPS 180-4)
    and [hmac.new(key, msg, digestmod).digest()] (RFC 2104), on bytes. *)

Definition bytes : Type := list byte.

Definition Z_of_byte (b : byte) : Z := Z.of_N (Byte.to_N b).

Definition byte_of_Z (z : Z) : byte :=
  byte_of_ascii (ascii_of_N (Z.to_N (z mod 256))).

(** [s.encode(encoding='utf-8')] and [b.decode()] *)
Definition encode_utf8 (s : string) : bytes := list_byte_of_string s.
Definition decode_utf8 (b : bytes) : string := string_of_list_byte b.

(** Big-endian integer of a byte string, and back at a fixed width. *)
Definition be_int (l : bytes) : Z :=
  fold_left (fun acc b => (acc * 256 + Z_of_byte b)%Z) l 0%Z.

Fixpoint be_bytes (width : nat) (x : Z) : bytes :=
  match width with
  | O => []
  | S n => byte_of_Z (Z.shiftr x (8 * Z.of_nat n)) :: be_bytes n x
  end.

(** Cut a list into chunks of [n] items; [fuel] bounds the number of
    chunks. *)
Fixpoint chunks {A} (fuel n : nat) (l : list A) : list (list A) :=
  match fuel, l with
  | O, _ | _, [] => []
  | S fuel', _ => firstn n l :: chunks fuel' n (skipn n l)
  end.

Module Base64.
Local Open Scope Z_scope.

Definition alphabet : string :=
  "ABCDEFGHIJKLMNOPQRSTUVWXYZabcdefghijklmnopqrstuvwxyz0123456789+/".

Definition sextet (n : Z) : byte :=
  match String.get (Z.to_nat (Z.land n 63)) alphabet with
  | Some c => byte_of_ascii c
  | None => "="%byte
  end.

Fixpoint standard_b64encode (l : bytes) : bytes :=
  match l with
  | [] => []
  | [a] =>
      let n := Z.shiftl (Z_of_byte a) 16 in
      [sextet (Z.shiftr n 18); sextet (Z.shiftr n 12); "="%byte; "="%byte]
  | [a; b] =>
      let n := Z.lor (Z.shiftl (Z_of_byte a) 16) (Z.shiftl (Z_of_byte b) 8) in
      [sextet (Z.shiftr n 18); sextet (Z.shiftr n 12);
       sextet (Z.shiftr n 6); "="%byte]
  | a :: b :: c :: rest =>
      let n := Z.lor (Z.lor (Z.shiftl (Z_of_byte a) 16)
                            (Z.shiftl (Z_of_byte b) 8)) (Z_of_byte c) in
      sextet (Z.shiftr n 18) :: sextet (Z.shiftr n 12) ::
      sextet (Z.shiftr n 6) :: sextet n :: standard_b64encode rest
  end.

End Base64.

Module SHA256.
Local Open Scope Z_scope.

Definition w32 (x : Z) : Z := Z.land x 0xffffffff.
Definition add (x y : Z) : Z := w32 (x + y).
Definition rotr (n x : Z) : Z :=
  Z.lor (Z.shiftr x n) (w32 (Z.shiftl x (32 - n))).
Definition shr (n x : Z) : Z := Z.shiftr x n.
Definition not32 (x : Z) : Z := Z.lxor x 0xffffffff.

Definition Ch (x y z : Z) : Z := Z.lxor (Z.land x y) (Z.land (not32 x) z).
Definition Maj (x y z : Z) : Z :=
  Z.lxor (Z.lxor (Z.land x y) (Z.land x z)) (Z.land y z).
Definition Sigma0 (x : Z) : Z :=
  Z.lxor (Z.lxor (rotr 2 x) (rotr 13 x)) (rotr 22 x).
Definition Sigma1 (x : Z) : Z :=
  Z.lxor (Z.lxor (rotr 6 x) (rotr 11 x)) (rotr 25 x).
Definition sigma0 (x : Z) : Z :=
  Z.lxor (Z.lxor (rotr 7 x) (rotr 18 x)) (shr 3 x).
Definition sigma1 (x : Z) : Z :=
  Z.lxor (Z.lxor (rotr 17 x) (rotr 19 x)) (shr 10 x).

(** Integer [k]-th root: the largest [r] below [2 ^ bits] with
    [r ^ k <= n], found bit by bit from the top. *)
Fixpoint root_bits (k : Z) (bits : nat) (n r : Z) : Z :=
  match bits with
  | O => r
  | S b =>
      let r' := r + 2 ^ Z.of_nat b in
      if r' ^ k <=? n then root_bits k b n r' else root_bits k b n r
  end.

(** The first 32 bits of the fractional part of the [k]-th root of [p]. *)
Definition frac_root (k p : Z) : Z :=
  w32 (root_bits k 40 (p * 2 ^ (32 * k)) 0).

Definition primes : list Z :=
  [ 2; 3; 5; 7; 11; 13; 17; 19; 23; 29; 31; 37; 41; 43; 47; 53; 59; 61; 67;
    71; 73; 79; 83; 89; 97; 101; 103; 107; 109; 113; 127; 131; 137; 139;
    149; 151; 157; 163; 167; 173; 179; 181; 191; 193; 197; 199; 211; 223;
    227; 229; 233; 239; 241; 251; 257; 263; 269; 271; 277; 281; 283; 293;
    307; 311 ].

(** The round constants come from the cube roots of the first 64 primes,
    the initial hash value from the square roots of the first 8. *)
Definition K : list Z := Eval vm_compute in map (frac_root 3) primes.

Definition H0 : list Z :=
  Eval vm_compute in map (frac_root 2) (firstn 8 primes).

(** Padding: a one bit, zeros up to 56 modulo 64, the bit length on 8
    bytes. *)
Definition pad (msg : bytes) : bytes :=
  let len := Z.of_nat (List.length msg) in
  let zeros := Z.to_nat ((55 - len) mod 64) in
  msg ++ [x80] ++ repeat x00 zeros ++ be_bytes 8 (8 * len).

Definition words_of_block (block : bytes) : list Z :=
  map be_int (chunks 16 4 block).

(** The message schedule, most recent word first. *)
Fixpoint extend (n : nat) (rw : list Z) : list Z :=
  match n with
  | O => rw
  | S n' =>
      let wt := add (add (sigma1 (nth 1 rw 0)) (nth 6 rw 0))
                    (add (sigma0 (nth 14 rw 0)) (nth 15 rw 0)) in
      extend n' (wt :: rw)
  end.

Definition schedule (block : bytes) : list Z :=
  rev (extend 48 (rev (words_of_block block))).

Definition round (s : list Z) (kw : Z * Z) : list Z :=
  match s with
  | [a; b; c; d; e; f; g; h] =>
      let t1 := add (add (add h (Sigma1 e)) (add (Ch e f g) (fst kw)))
                    (snd kw) in
      let t2 := add (Sigma0 a) (Maj a b c) in
      [add t1 t2; a; b; c; add d t1; e; f; g]
  | _ => s
  end.

Definition compress (h : list Z) (block : bytes) : list Z :=
  let s := fold_left round (combine K (schedule block)) h in
  map (fun p => add (fst p) (snd p)) (combine h s).

Definition sha256 (msg : bytes) : bytes :=
  let p := pad msg in
  let blocks := chunks (List.length p) 64 p in
  flat_map (be_bytes 4) (fold_left compress blocks H0).

End SHA256.

Module HMAC.
Local Open Scope Z_scope.

Definition block_size : nat := 64.

Definition xor_with (c : Z) (l : bytes) : bytes :=
  map (fun b => byte_of_Z (Z.lxor (Z_of_byte b) c)) l.

(** [hmac.new(key, msg=msg, digestmod=hashlib.sha256).digest()] *)
Definition hmac_sha256 (key msg : bytes) : bytes :=
  let k := if (Nat.ltb block_size (List.length key)) then SHA256.sha256 key
           else key in
  let k := k ++ repeat x00 (block_size - List.length k) in
  SHA256.sha256 (xor_with 0x5c k ++ SHA256.sha256 (xor_with 0x36 k ++ msg)).

End HMAC.

(** Lower-case hexadecimal text of a byte string ([bytes.hex()]). *)
Definition hex_digit (n : Z) : ascii :=
  match String.get (Z.to_nat (Z.land n 15)) "0123456789abcdef" with
  | Some c => c
  | None => "0"%char
  end.

Fixpoint hexlify (l : bytes) : string :=
  match l with
  | [] => EmptyString
  | b :: l' =>
      String (hex_digit (Z.shiftr (Z_of_byte b) 4))
        (String (hex_digit (Z_of_byte b)) (hexlify l'))
  end.

(** ** Exceptions *)

(** What a call can raise.  Exceptions raised inside a collaborator are
    opaque to this class and are tagged with the collaborator they come
    from. *)
Inductive exn : Type :=
| ValueError (message : string)
| ValueError_int_literal (literal : string)
    (* int(): invalid literal for int() with base 16 *)
| TypeError_None_subscript
    (* 'NoneType' object is not subscriptable *)
| KeyError (key : string)
| WalletError (e : string)
| Web3Error (e : string)
| HelperError (e : string)
| TransportError (e : string).

Inductive result (A : Type) : Type :=
| Ok (a : A)
| Raise (e : exn).
Arguments Ok {A} a.
Arguments Raise {A} e.

(** The error names of the specification. *)
Definition MissingStarkKey : exn :=
  ValueError "STARK private key or public key is required".
Definition MissingStarkKeyYCoordinate : exn :=
  ValueError "STARK private key or public key y-coordinate is required".
Definition MalformedSignature (signature : string) : exn :=
  ValueError_int_literal signature.
Definition MissingCredentials : exn := TypeError_None_subscript.
Definition SigningUnavailable (e : string) : exn := WalletError e.

(** ** Collaborators *)

(** Result of a call into a collaborator: a value, or an exception of the
    collaborator. *)
Inductive ext (A : Type) : Type :=
| Returns (a : A)
| Fails (e : string).
Arguments Returns {A} a.
Arguments Fails {A} e.

(** What [_submit_request] is called with. *)
Record Request : Type := {
  req_method : string;
  req_path : string;
  req_headers : option Py.dict;
  req_query : Py.dict
}.

(** The part of a response that this class reads: [res.get('data')] and,
    inside it, the entries ['user'] and ['account']. *)
Record ResponseData : Type := {
  data_user : option string;
  data_account : option string
}.

Record Response : Type := {
  data : option ResponseData
}.

(** Names imported by [http_private.py] whose definitions live elsewhere:
    the constants of [apexpro.constants], the helpers of the package,
    [Web3.solidityKeccak] and the [_submit_request] of the base class. *)
Class Collaborators : Type := {
  URL_SUFFIX : string;
  OFF_CHAIN_KEY_DERIVATION_ACTION : string;
  OFF_CHAIN_ONBOARDING_ACTION : string;
  generate_query_path : string -> Py.dict -> string;
  private_key_to_public_key_pair_hex : string -> ext (string * string);
  Web3_solidityKeccak : list string -> list Z -> ext bytes;
  _submit_request : Request -> ext Response
}.

(** ** The client object *)

Record Credentials : Type := {
  key : string;
  secret : string;
  passphrase : string
}.

Record HttpPrivate : Type := {
  endpoint : string;
  api_key_credentials : option Credentials;
  stark_public_key : Py.value;
  stark_public_key_y_coordinate : Py.value;
  default_address : Py.value;
  (* self.signer.sign(address, action=..., nonce=...) *)
  signer_sign : Py.value -> string -> Py.value -> ext string;
  (* self.starkeySigner.sign_message(address, action=...) *)
  starkeySigner_sign_message : Py.value -> string -> ext string;
  user : option string;
  account : option string
}.

Definition set_user (u : option string) (self : HttpPrivate) : HttpPrivate :=
  {| endpoint := endpoint self;
     api_key_credentials := api_key_credentials self;
     stark_public_key := stark_public_key self;
     stark_public_key_y_coordinate := stark_public_key_y_coordinate self;
     default_address := default_address self;
     signer_sign := signer_sign self;
     starkeySigner_sign_message := starkeySigner_sign_message self;
     user := u;
     account := account self |}.

Definition set_account (a : option string) (self : HttpPrivate) : HttpPrivate :=
  {| endpoint := endpoint self;
     api_key_credentials := api_key_credentials self;
     stark_public_key := stark_public_key self;
     stark_public_key_y_coordinate := stark_public_key_y_coordinate self;
     default_address := default_address self;
     signer_sign := signer_sign self;
     starkeySigner_sign_message := starkeySigner_sign_message self;
     user := user self;
     account := a |}.

(** What [derive_stark_key] returns. *)
Record StarkKeyPair : Type := {
  public_key : string;
  public_key_y_coordinate : string;
  private_key : string
}.

(** ** Methods as computations

    A method runs on the object, may change it, calls collaborators in some
    order and returns or raises.  The changes made before a [raise] stay. *)

Inductive Event : Type :=
| WalletSign (address : Py.value) (action : string) (nonce : Py.value)
| WalletSignMessage (address : Py.value) (action : string)
| Submit (request : Request).

Definition M (A : Type) : Type :=
  HttpPrivate -> list Event * HttpPrivate * result A.

Definition ret {A} (a : A) : M A := fun self => ([], self, Ok a).

Definition raise {A} (e : exn) : M A := fun self => ([], self, Raise e).

Definition bind {A B} (m : M A) (k : A -> M B) : M B :=
  fun self =>
    match m self with
    | (t, self', Ok a) =>
        match k a self' with
        | (t', self'', r) => (t ++ t', self'', r)
        end
    | (t, self', Raise e) => (t, self', Raise e)
    end.

Declare Scope method_scope.
Delimit Scope method_scope with method.
Notation "x <- m ;; k" := (bind m (fun x => k))
  (at level 61, m at next level, right associativity) : method_scope.
Notation "m ;; k" := (bind m (fun _ => k))
  (at level 61, right associativity) : method_scope.

Definition get_self : M HttpPrivate := fun self => ([], self, Ok self).

Definition update (f : HttpPrivate -> HttpPrivate) : M unit :=
  fun self => ([], f self, Ok tt).

Definition emit (ev : Event) : M unit := fun self => ([ev], self, Ok tt).

Definition lift {A} (r : result A) : M A := fun self => ([], self, r).

(** A call into a collaborator; its exception propagates under [tag]. *)
Definition call {A} (tag : string -> exn) (r : ext A) : M A :=
  match r with
  | Returns a => ret a
  | Fails e => raise (tag e)
  end.

Definition trace {A} (out : list Event * HttpPrivate * result A) : list Event :=
  fst (fst out).
Definition final {A} (out : list Event * HttpPrivate * result A) : HttpPrivate :=
  snd (fst out).
Definition returned {A} (out : list Event * HttpPrivate * result A) : result A :=
  snd out.

(** The requests handed to the transport, in order. *)
Fixpoint submitted (t : list Event) : list Request :=
  match t with
  | [] => []
  | Submit r :: t' => r :: submitted t'
  | _ :: t' => submitted t'
  end.

(** ** [class HttpPrivate] *)

Section Methods.
Context {C : Collaborators}.
Import Py Canonical.
Local Open Scope method_scope.

(** The string that [sign] authenticates. *)
Definition message_string
  (iso_timestamp method request_path : string) (data : dict) : string :=
  iso_timestamp ++ method ++ request_path ++ dataString data.

(** [sign(self, request_path, method, iso_timestamp, data)].  Reading
    [self.api_key_credentials['secret']] raises on [None]. *)
Definition sign (self : HttpPrivate)
  (request_path method iso_timestamp : string) (data : dict)
  : result string :=
  let message := message_string iso_timestamp method request_path data in
  match api_key_credentials self with
  | None => Raise TypeError_None_subscript
  | Some credentials =>
      let hashed :=
        HMAC.hmac_sha256
          (Base64.standard_b64encode (encode_utf8 (secret credentials)))
          (encode_utf8 message) in
      Ok (decode_utf8 (Base64.standard_b64encode hashed))
  end.

Definition submit (request : Request) : M Response :=
  emit (Submit request) ;;
  call TransportError (_submit_request request).

(** [_private_request(self, method, path, data={}, headers=None)];
    [now_iso] is what [generate_now()] returns during the call.  Nothing
    in this class writes to [data], so the shared default [{}] stays
    empty. *)
Definition _private_request
  (method path : string) (data : dict) (headers : option dict)
  (now_iso : value) : M Response :=
  self <- get_self ;;
  headers <-
    match api_key_credentials self with
    | Some credentials =>
        signature <- lift (sign self path (upper method) (str now_iso) data) ;;
        ret (Some [ ("APEX-SIGNATURE", Str signature);
                    ("APEX-API-KEY", Str (key credentials));
                    ("APEX-TIMESTAMP", Str (str now_iso));
                    ("APEX-PASSPHRASE", Str (passphrase credentials)) ])
    | None => ret headers
    end ;;
  submit {| req_method := method;
            req_path := endpoint self ++ path;
            req_headers := headers;
            req_query := data |}.

Definition _get (endpoint : string) (params : dict) (now_iso : value)
  : M Response :=
  _private_request "GET" (generate_query_path endpoint params) [] None now_iso.

Definition _post (endpoint : string) (data : dict) (headers : option dict)
  (now_iso : value) : M Response :=
  _private_request "POST" endpoint data headers now_iso.

(** [register_user(self, nonce, starkKey=None, ...)] *)
Definition register_user
  (nonce starkKey stark_public_key_y_coordinate' ethereum_address
     referred_by_affiliate_link country isLpAccount eth_mul_address : value)
  (now_iso : value) : M Response :=
  self <- get_self ;;
  let stark_key := or_ starkKey (stark_public_key self) in
  let stark_key_y :=
    or_ stark_public_key_y_coordinate' (stark_public_key_y_coordinate self) in
  if is_None stark_key then
    raise (ValueError "STARK private key or public key is required")
  else if is_None stark_key_y then
    raise (ValueError
             "STARK private key or public key y-coordinate is required")
  else
    let eth_address := or_ ethereum_address (default_address self) in
    emit (WalletSign eth_address OFF_CHAIN_ONBOARDING_ACTION nonce) ;;
    signature <-
      call WalletError
        (signer_sign self eth_address OFF_CHAIN_ONBOARDING_ACTION nonce) ;;
    let path := (URL_SUFFIX ++ "/v1/onboarding")%string in
    onboardingRes <-
      _private_request "POST" path
        [ ("starkKey", stark_key);
          ("starkKeyYCoordinate", stark_key_y);
          ("referredByAffiliateLink", referred_by_affiliate_link);
          ("ethereumAddress", eth_address);
          ("country", country);
          ("category", Str "CATEGORY_API");
          ("isLpAccount", isLpAccount);
          ("ethMulAddress", eth_mul_address) ]
        (Some [ ("APEX-SIGNATURE", Str signature);
                ("APEX-ETHEREUM-ADDRESS", eth_address) ])
        now_iso ;;
    match data onboardingRes with
    | Some d =>
        match data_user d with
        | Some u => update (set_user (Some u))
        | None => raise (KeyError "user")
        end ;;
        match data_account d with
        | Some a => update (set_account (Some a))
        | None => raise (KeyError "account")
        end
    | None => ret tt
    end ;;
    ret onboardingRes.

(** [HexBytes.hex()] of the digest that web3 returns.  Whether the text
    carries the [0x] prefix depends on the version of the library;
    [int(text, 16)] reads the same integer either way. *)
Definition HexBytes_hex (b : bytes) : string := "0x" ++ hexlify b.

(** [int(text, 16)], raising on a literal that does not parse. *)
Definition int_base16 (text : string) : M Z :=
  match int16 text with
  | Some n => ret n
  | None => raise (ValueError_int_literal text)
  end.

(** [derive_stark_key(self, ethereum_address=None)] *)
Definition derive_stark_key (ethereum_address : value) : M StarkKeyPair :=
  self <- get_self ;;
  let address := or_ ethereum_address (default_address self) in
  emit (WalletSignMessage address OFF_CHAIN_KEY_DERIVATION_ACTION) ;;
  signature <-
    call WalletError
      (starkeySigner_sign_message self address
         OFF_CHAIN_KEY_DERIVATION_ACTION) ;;
  signature_int <- int_base16 signature ;;
  hashed_signature <-
    call Web3Error (Web3_solidityKeccak ["uint256"] [signature_int]) ;;
  hashed_int <- int_base16 (HexBytes_hex hashed_signature) ;;
  let private_key_int := Z.shiftr hashed_int 5 in
  let private_key_hex := hex private_key_int in
  public <-
    call HelperError (private_key_to_public_key_pair_hex private_key_hex) ;;
  ret {| public_key := fst public;
         public_key_y_coordinate := snd public;
         private_key := private_key_hex |}.

End Methods.

Section Wrappers.
Context {C : Collaborators}.
Import Py.

(** [generate_nonce(self, **kwargs)] *)
Definition generate_nonce (kwargs : dict) (now_iso : value) : M Response :=
  let path := (URL_SUFFIX ++ "/v1/generate-nonce")%string in
  _private_request "POST" path kwargs None now_iso.

End Wrappers.

(** ** Reference collaborators

    Concrete collaborators on which the methods can be run: Keccak-256,
    the STARK curve, a query-path helper and a transport that answers
    with an empty payload. *)

Module Keccak.
Local Open Scope Z_scope.

Definition w64 (x : Z) : Z := Z.land x 0xffffffffffffffff.
Definition rotl (n x : Z) : Z :=
  w64 (Z.lor (Z.shiftl x n) (Z.shiftr x (64 - n))).

(** The state is the 25 lanes [A[x,y]] at index [x + 5 y]. *)
Definition lane (s : list Z) (x y : nat) : Z :=
  nth ((x mod 5) + 5 * (y mod 5)) s 0.

Definition coords : list (nat * nat) :=
  flat_map (fun y => map (fun x => (x, y)) (seq 0 5)) (seq 0 5).

Definition rotation_offsets : list Z :=
  [  0;  1; 62; 28; 27;
    36; 44;  6; 55; 20;
     3; 10; 43; 25; 39;
    41; 45; 15; 21;  8;
    18;  2; 61; 56; 14 ].

Definition round_constants : list Z :=
  [ 0x0000000000000001; 0x0000000000008082; 0x800000000000808A;
    0x8000000080008000; 0x000000000000808B; 0x0000000080000001;
    0x8000000080008081; 0x8000000000008009; 0x000000000000008A;
    0x0000000000000088; 0x0000000080008009; 0x000000008000000A;
    0x000000008000808B; 0x800000000000008B; 0x8000000000008089;
    0x8000000000008003; 0x8000000000008002; 0x8000000000000080;
    0x000000000000800A; 0x800000008000000A; 0x8000000080008081;
    0x8000000000008080; 0x0000000080000001; 0x8000000080008008 ].

Definition theta (s : list Z) : list Z :=
  let c x := fold_left Z.lxor (map (lane s x) (seq 0 5)) 0 in
  let d x := Z.lxor (c (x + 4)%nat) (rotl 1 (c (x + 1)%nat)) in
  map (fun xy => Z.lxor (lane s (fst xy) (snd xy)) (d (fst xy))) coords.

Definition rho_pi (s : list Z) : list Z :=
  map (fun xy =>
         let x := ((fst xy + 3 * snd xy) mod 5)%nat in
         let y := fst xy in
         rotl (nth (x + 5 * y) rotation_offsets 0) (lane s x y))
      coords.

Definition chi (s : list Z) : list Z :=
  map (fun xy =>
         let (x, y) := (fst xy, snd xy) in
         Z.lxor (lane s x y)
           (Z.land (Z.lxor (lane s (x + 1) y) 0xffffffffffffffff)
                   (lane s (x + 2) y)))
      coords.

Definition iota (rc : Z) (s : list Z) : list Z :=
  match s with
  | a :: s' => Z.lxor a rc :: s'
  | [] => []
  end.

Definition keccak_f (s : list Z) : list Z :=
  fold_left (fun s rc => iota rc (chi (rho_pi (theta s)))) round_constants s.

Definition rate : nat := 136.

Definition le_int (l : bytes) : Z :=
  fold_right (fun b acc => Z_of_byte b + 256 * acc) 0 l.

Fixpoint le_bytes (width : nat) (x : Z) : bytes :=
  match width with
  | O => []
  | S n => byte_of_Z x :: le_bytes n (Z.shiftr x 8)
  end.

(** Multi-rate padding after the domain byte [d]. *)
Definition pad (d : Z) (msg : bytes) : bytes :=
  let q := (rate - (List.length msg mod rate))%nat in
  msg ++
  match q with
  | 1%nat => [byte_of_Z (Z.lor d 0x80)]
  | _ => [byte_of_Z d] ++ repeat x00 (q - 2) ++ [x80]
  end.

Definition absorb (s : list Z) (block : bytes) : list Z :=
  let lanes := map le_int (chunks 17 8 block) in
  keccak_f (map (fun p => Z.lxor (fst p) (snd p))
                (combine s (lanes ++ repeat 0 8))).

Definition sponge (d : Z) (msg : bytes) : bytes :=
  let p := pad d msg in
  let s := fold_left absorb (chunks (List.length p) rate p)
                     (repeat 0 25) in
  flat_map (le_bytes 8) (firstn 4 s).

(** Keccak-256, the hash of [Web3.keccak]. *)
Definition keccak256 (msg : bytes) : bytes := sponge 0x01 msg.

End Keccak.

Module StarkCurve.
Local Open Scope Z_scope.

(** The curve [y^2 = x^3 + ALPHA x + BETA] over the field of [P]
    elements, its generator and the order of the generator. *)
Definition P : Z :=
  0x800000000000011000000000000000000000000000000000000000000000001.
Definition ALPHA : Z := 1.
Definition BETA : Z :=
  0x6f21413efbe40de150e596d72f7a8c5609ad26c15c915c1f4cdfcb99cee9e89.
Definition G : Z * Z :=
  (0x1ef15c18599971b7beced415a40f0c7deacfd9b0d1819e03d723d8bc943cfca,
   0x5668060aa49730b7be4801df46ec62de53ecd11abe43a32873000c36e8dc1f).
Definition ORDER : Z :=
  0x800000000000010ffffffffffffffffb781126dcae7b2321e66a241adc64d2f.

Definition on_curve (pt : Z * Z) : bool :=
  let (x, y) := pt in
  (y * y mod P =? (x * x * x + ALPHA * x + BETA) mod P).

(** Field operations, on machine-word integers so that a scalar
    multiplication runs in reasonable time. *)
Definition fe : Type := bigZ.
Definition fP : fe := BigZ.of_Z P.
Definition fmul (a b : fe) : fe := BigZ.modulo (BigZ.mul a b) fP.
Definition fsub (a b : fe) : fe := BigZ.modulo (BigZ.sub a b) fP.
Definition fadd (a b : fe) : fe := BigZ.modulo (BigZ.add a b) fP.
Definition fsqr (a : fe) : fe := fmul a a.
Definition fnum (n : Z) : fe := BigZ.modulo (BigZ.of_Z n) fP.

Fixpoint fpow (a : fe) (e : positive) : fe :=
  match e with
  | xH => a
  | xO e' => fsqr (fpow a e')
  | xI e' => fmul (fsqr (fpow a e')) a
  end.

Definition finv (a : fe) : fe :=
  match P - 2 with
  | Zpos e => fpow a e
  | _ => a
  end.

(** Points in Jacobian coordinates: [(X, Y, Z)] stands for the affine
    point [(X / Z^2, Y / Z^3)]; [None] is the point at infinity. *)
Definition jacobian : Type := option (fe * fe * fe).

Definition double (pt : jacobian) : jacobian :=
  match pt with
  | None => None
  | Some (x, y, z) =>
      if BigZ.eqb y (fnum 0) then None
      else
        let yy := fsqr y in
        let s := fmul (fnum 4) (fmul x yy) in
        let m := fadd (fmul (fnum 3) (fsqr x))
                      (fmul (fnum ALPHA) (fsqr (fsqr z))) in
        let x' := fsub (fsqr m) (fmul (fnum 2) s) in
        let y' := fsub (fmul m (fsub s x')) (fmul (fnum 8) (fsqr yy)) in
        Some (x', y', fmul (fnum 2) (fmul y z))
  end.

Definition add (p1 p2 : jacobian) : jacobian :=
  match p1, p2 with
  | None, _ => p2
  | _, None => p1
  | Some (x1, y1, z1), Some (x2, y2, z2) =>
      let u1 := fmul x1 (fsqr z2) in
      let u2 := fmul x2 (fsqr z1) in
      let s1 := fmul y1 (fmul z2 (fsqr z2)) in
      let s2 := fmul y2 (fmul z1 (fsqr z1)) in
      if BigZ.eqb u1 u2
      then if BigZ.eqb s1 s2 then double p1 else None
      else
        let h := fsub u2 u1 in
        let r := fsub s2 s1 in
        let hh := fsqr h in
        let hhh := fmul h hh in
        let v := fmul u1 hh in
        let x' := fsub (fsub (fsqr r) hhh) (fmul (fnum 2) v) in
        let y' := fsub (fmul r (fsub v x')) (fmul s1 hhh) in
        Some (x', y', fmul h (fmul z1 z2))
  end.

Fixpoint mult (k : positive) (pt : jacobian) : jacobian :=
  match k with
  | xH => pt
  | xO k' => double (mult k' pt)
  | xI k' => add (double (mult k' pt)) pt
  end.

Definition affine (pt : jacobian) : option (Z * Z) :=
  match pt with
  | None => None
  | Some (x, y, z) =>
      let zi := finv z in
      let zi2 := fsqr zi in
      Some (BigZ.to_Z (fmul x zi2), BigZ.to_Z (fmul y (fmul zi zi2)))
  end.

(** The public point [k G] of the private scalar [k]. *)
Definition public_point (private_key : Z) : option (Z * Z) :=
  match private_key with
  | Zpos k => affine (mult k (Some (fnum (fst G), fnum (snd G), fnum 1)))
  | _ => None
  end.

End StarkCurve.

(** Modelled from the spec: the integer is hashed "encoded as a 256-bit
    unsigned value".  [Web3.solidityKeccak], which the code calls and which
    is declared outside [http_private.py], hashes for one [uint256] the
    hexadecimal digits of the integer, filled with zeros on the left up to
    64 digits and read as bytes.  Below [2 ^ 256] this is the 32-byte
    big-endian encoding; a larger integer keeps all its bytes. *)
Definition abi_uint256_bytes (v : Z) : bytes :=
  be_bytes (Nat.max 32 (Z.to_nat (Z.log2 v / 8 + 1))) v.

(** Modelled from the spec: the helpers of the package, the constants and
    the transport are declared outside [http_private.py].  This instance
    fills them in so that the methods can be run on concrete inputs: the
    key helper returns the two coordinates, as hex strings, of the public
    point of the private scalar on the STARK curve; the keccak of one
    [uint256] hashes [abi_uint256_bytes] of the integer and refuses a
    negative one; the query path appends the parameters that are not null
    after a [?]; the transport answers every request with a response
    without payload. *)
Definition reference_collaborators : Collaborators := {|
  URL_SUFFIX := "/api";
  OFF_CHAIN_KEY_DERIVATION_ACTION := "L2 Key";
  OFF_CHAIN_ONBOARDING_ACTION := "ApeX Onboarding";
  generate_query_path := fun url params =>
    let paramsString :=
      Py.join "&" (map Canonical.format_item
                       (filter Canonical.not_None params)) in
    if (paramsString =? "")%string then url
    else (url ++ "?" ++ paramsString)%string;
  private_key_to_public_key_pair_hex := fun private_key_hex =>
    match Py.int16 private_key_hex with
    | Some k =>
        if ((0 <? k) && (k <? StarkCurve.ORDER))%Z then
          match StarkCurve.public_point k with
          | Some (x, y) => Returns (Py.hex x, Py.hex y)
          | None => Fails "point at infinity"
          end
        else Fails "private key out of range"
    | None => Fails "invalid literal"
    end;
  Web3_solidityKeccak := fun abi_types values =>
    match abi_types, values with
    | [ty], [v] =>
        if ((ty =? "uint256")%string && (0 <=? v))%Z
        then Returns (Keccak.keccak256 (abi_uint256_bytes v))
        else Fails "value is not a uint256"
    | _, _ => Fails "unsupported"
    end;
  _submit_request := fun _ => Returns {| data := None |}
|}.

(** ** Vocabulary of the specification *)

(** A string is valid hexadecimal when it is a non-empty run of
    hexadecimal digits, with or without a leading [0x]; [hex_value] is the
    integer it denotes in base 16. *)
Definition is_hex_digit (c : ascii) : bool :=
  match Py.digit16 c with Some _ => true | None => false end.

Definition digit_value (c : ascii) : Z :=
  match Py.digit16 c with Some d => d | None => 0%Z end.

Definition hex_digits (s : string) : list ascii :=
  match list_ascii_of_string s with
  | c0 :: c1 :: d =>
      if ((c0 =? "0") && ((c1 =? "x") || (c1 =? "X")))%char then d
      else c0 :: c1 :: d
  | l => l
  end.

Definition valid_hex (s : string) : bool :=
  match hex_digits s with
  | [] => false
  | d => forallb is_hex_digit d
  end.

Definition hex_value (s : string) : Z :=
  fold_left (fun acc c => (16 * acc + digit_value c)%Z) (hex_digits s) 0%Z.

(** The signature of [message] under [secret]: HMAC-SHA256 of the UTF-8
    bytes of the message, keyed by the base64 text of the UTF-8 bytes of
    the secret, in base64. *)
Definition hmac_signature (secret message : string) : string :=
  decode_utf8
    (Base64.standard_b64encode
       (HMAC.hmac_sha256
          (Base64.standard_b64encode (encode_utf8 secret))
          (encode_utf8 message))).

(** The request that [_private_request] builds (lines 27-45). *)
Definition built_request (self : HttpPrivate) (method path : string)
  (data : Py.dict) (headers : option Py.dict) (now_iso : Py.value) : Request :=
  {| req_method := method;
     req_path := endpoint self ++ path;
     req_headers :=
       match api_key_credentials self with
       | Some credentials =>
           Some [ ("APEX-SIGNATURE",
                   Py.Str (hmac_signature (secret credentials)
                          (message_string (Py.str now_iso) (Py.upper method) path
                             data)));
                  ("APEX-API-KEY", Py.Str (key credentials));
                  ("APEX-TIMESTAMP", Py.Str (Py.str now_iso));
                  ("APEX-PASSPHRASE", Py.Str (passphrase credentials)) ]
       | None => headers
       end;
     req_query := data |}.

(** A byte of base64 text: a character of the alphabet or the padding. *)
Definition base64_char (b : byte) : Prop :=
  In b (encode_utf8 Base64.alphabet) \/ b = "="%byte.

(** The data and the headers that [register_user] passes to
    [_private_request] (lines 147-160). *)
Definition onboarding_data
  (stark_key stark_key_y referred_by_affiliate_link eth_address country
     isLpAccount eth_mul_address : Py.value) : Py.dict :=
  [ ("starkKey", stark_key);
    ("starkKeyYCoordinate", stark_key_y);
    ("referredByAffiliateLink", referred_by_affiliate_link);
    ("ethereumAddress", eth_address);
    ("country", country);
    ("category", Py.Str "CATEGORY_API");
    ("isLpAccount", isLpAccount);
    ("ethMulAddress", eth_mul_address) ].

Definition onboarding_headers (signature : string) (eth_address : Py.value)
  : Py.dict :=
  [ ("APEX-SIGNATURE", Py.Str signature);
    ("APEX-ETHEREUM-ADDRESS", eth_address) ].

(** A client to run the methods on: the wallet answers every request with
    [wallet_signature]. *)
Definition sample_client (credentials : option Credentials)
  (stark_key stark_key_y : Py.value) (wallet_signature : string)
  : HttpPrivate :=
  {| endpoint := "https://pro.apex.exchange";
     api_key_credentials := credentials;
     stark_public_key := stark_key;
     stark_public_key_y_coordinate := stark_key_y;
     default_address := Py.Str "0x52908400098527886E0F7030069857D2E4169EE7";
     signer_sign := fun _ _ _ => Returns wallet_signature;
     starkeySigner_sign_message := fun _ _ => Returns wallet_signature;
     user := None;
     account := None |}.

Definition sample_credentials : Credentials :=
  {| key := "K"; secret := "S"; passphrase := "P" |}.

Definition with_credentials : HttpPrivate :=
  sample_client (Some sample_credentials) (Py.Str "0x1") (Py.Str "0x2")
    "0x1b2c".

Definition without_credentials : HttpPrivate :=
  sample_client None (Py.Str "0x1") (Py.Str "0x2") "0x1b2c".

Definition without_keys : HttpPrivate :=
  sample_client None Py.None_ Py.None_ "0x1b2c".

(** A client whose wallet refuses to sign. *)
Definition locked_wallet_client : HttpPrivate :=
  {| endpoint := "https://pro.apex.exchange";
     api_key_credentials := None;
     stark_public_key := Py.Str "0x1";
     stark_public_key_y_coordinate := Py.Str "0x2";
     default_address := Py.Str "0x52908400098527886E0F7030069857D2E4169EE7";
     signer_sign := fun _ _ _ => Fails "wallet locked";
     starkeySigner_sign_message := fun _ _ => Fails "wallet locked";
     user := None;
     account := None |}.

(** The reference collaborators with a transport that answers with the
    given response. *)
Definition answering_collaborators (response : Response) : Collaborators :=
  {| URL_SUFFIX := @URL_SUFFIX reference_collaborators;
     OFF_CHAIN_KEY_DERIVATION_ACTION :=
       @OFF_CHAIN_KEY_DERIVATION_ACTION reference_collaborators;
     OFF_CHAIN_ONBOARDING_ACTION :=
       @OFF_CHAIN_ONBOARDING_ACTION reference_collaborators;
     generate_query_path := @generate_query_path reference_collaborators;
     private_key_to_public_key_pair_hex :=
       @private_key_to_public_key_pair_hex reference_collaborators;
     Web3_solidityKeccak := @Web3_solidityKeccak reference_collaborators;
     _submit_request := fun _ => Returns response |}.

(** The wallet signature quoted in [register_user] (line 136). *)
Definition quoted_signature : string :=
  "0x6f4ae7978b936f91360d70eed28b54280a75cf54a44d029ddd604d1260bd82906a5b0f705785c7394776026fd2bd74b8c956cc7648982f0aea1bb86ed11c8d6b1c00".

(** The first 32 bytes of the wallet signature quoted in [register_user]. *)
Definition sample_signature : string :=
  "0x6f4ae7978b936f91360d70eed28b54280a75cf54a44d029ddd604d1260bd8290".

(** The key pair that the reference collaborators derive from it. *)
Definition sample_key_pair : StarkKeyPair :=
  {| public_key :=
       "0x5ab30723d598ed2fd4e51ccf445b6c5874851db07f019993e700ac2ffc4b964";
     public_key_y_coordinate :=
       "0x48596357675cccfe142d6e565bc5c5a48c388380a0ac3e916dec9b391b6c9e1";
     private_key :=
       "0x16f836c0341220aaf4e7564a24a162647b48087b3294b94eb8331b5c5239068" |}.

(** [derive_stark_key()] on an object whose wallet answers [signature]. *)
Definition derive_on (signature : string)
  : list Event * HttpPrivate * result StarkKeyPair :=
  @derive_stark_key reference_collaborators Py.None_
    (sample_client None Py.None_ Py.None_ signature).

(** [register_user(nonce='1')], every other argument left at [None]. *)
Definition register_on (self : HttpPrivate)
  : list Event * HttpPrivate * result Response :=
  @register_user reference_collaborators (Py.Str "1") Py.None_ Py.None_
    Py.None_ Py.None_ Py.None_ Py.None_ Py.None_ (Py.Int 1700000000000) self.

(** ** Facts about sorting by key *)

Section SortFacts.
Import Py Canonical.

Lemma ltb_irrefl (s : string) : (s <? s)%string = false.
Proof.
  unfold String.ltb.
  pose proof (String.compare_antisym s s) as E.
  destruct (s ?= s)%string; simpl in E; try reflexivity; discriminate.
Qed.

Lemma compare_lt_trans (a b c : string) :
  (a ?= b)%string = Lt -> (b ?= c)%string = Lt -> (a ?= c)%string = Lt.
Proof.
  intros H1 H2.
  apply String_as_OT.cmp_lt in H1, H2.
  apply String_as_OT.cmp_lt.
  eapply String_as_OT.lt_trans; eassumption.
Qed.

Lemma key_le_trans (x y z : string * value) :
  key_le x y -> key_le y z -> key_le x z.
Proof.
  unfold key_le, String.ltb. intros Hxy Hyz.
  destruct (fst z ?= fst x)%string eqn:Ezx; try reflexivity.
  destruct (fst y ?= fst x)%string eqn:Eyx; try discriminate.
  - apply String.compare_eq_iff in Eyx. rewrite Eyx in Hyz.
    rewrite Ezx in Hyz. discriminate.
  - destruct (fst z ?= fst y)%string eqn:Ezy; try discriminate.
    + apply String.compare_eq_iff in Ezy. rewrite Ezy in Ezx.
      rewrite Ezx in Eyx. discriminate.
    + rewrite String.compare_antisym in Eyx.
      destruct (fst x ?= fst y)%string eqn:Exy; simpl in Eyx; try discriminate.
      rewrite String.compare_antisym in Ezy.
      destruct (fst y ?= fst z)%string eqn:Eyz; simpl in Ezy; try discriminate.
      rewrite String.compare_antisym, (compare_lt_trans _ _ _ Exy Eyz) in Ezx.
      discriminate.
Qed.

Lemma key_le_total (x y : string * value) : key_le x y \/ key_le y x.
Proof.
  unfold key_le, String.ltb.
  rewrite (String.compare_antisym (fst x) (fst y)).
  destruct (fst y ?= fst x)%string; simpl; auto.
Qed.

Lemma key_le_antisym (x y : string * value) :
  key_le x y -> key_le y x -> fst x = fst y.
Proof.
  unfold key_le, String.ltb. intros H1 H2.
  rewrite String.compare_antisym in H2.
  destruct (fst y ?= fst x)%string eqn:E; simpl in H2; try discriminate.
  symmetry. now apply String.compare_eq_iff.
Qed.

Lemma insert_item_perm x l : Permutation (x :: l) (insert_item x l).
Proof.
  induction l as [|y l IH]; simpl.
  - apply Permutation_refl.
  - destruct (fst y <? fst x)%string.
    + eapply perm_trans; [apply perm_swap|]. now apply perm_skip.
    + apply Permutation_refl.
Qed.

Lemma sorted_by_key_perm l : Permutation l (sorted_by_key l).
Proof.
  induction l as [|x l IH]; simpl.
  - apply perm_nil.
  - eapply perm_trans; [apply perm_skip, IH | apply insert_item_perm].
Qed.

Lemma insert_item_sorted x l :
  StronglySorted key_le l -> StronglySorted key_le (insert_item x l).
Proof.
  induction 1 as [|y l Hl IH Hy]; simpl.
  - repeat constructor.
  - destruct (fst y <? fst x)%string eqn:E.
    + constructor; [exact IH|].
      eapply Permutation_Forall; [apply insert_item_perm|].
      constructor; [|exact Hy].
      destruct (key_le_total y x) as [H|H]; [exact H|].
      unfold key_le in H. congruence.
    + constructor; [now constructor|].
      constructor; [exact E|].
      eapply Forall_impl; [|exact Hy].
      intros z Hz. eapply key_le_trans; [exact E|exact Hz].
Qed.

Lemma sorted_by_key_sorted l : StronglySorted key_le (sorted_by_key l).
Proof.
  induction l as [|x l IH]; simpl.
  - constructor.
  - now apply insert_item_sorted.
Qed.

Lemma insert_item_head x l :
  Forall (key_le x) l -> insert_item x l = x :: l.
Proof.
  destruct 1 as [|y l Hy _]; simpl; [reflexivity|].
  unfold key_le in Hy. now rewrite Hy.
Qed.

Lemma filter_insert_item (p : string * value -> bool) x l :
  StronglySorted key_le l ->
  filter p (insert_item x l) =
  if p x then insert_item x (filter p l) else filter p l.
Proof.
  induction 1 as [|y l Hl IH Hy]; simpl.
  - now destruct (p x).
  - destruct (fst y <? fst x)%string eqn:E; simpl.
    + rewrite IH. destruct (p y), (p x); simpl; rewrite ?E; reflexivity.
    + change (if p y then y :: filter p l else filter p l)
        with (filter p (y :: l)).
      destruct (p x); [|reflexivity].
      rewrite insert_item_head; [reflexivity|].
      assert (Hall : Forall (key_le x) (y :: l)).
      { constructor; [exact E|].
        eapply Forall_impl; [|exact Hy].
        intros z Hz. eapply key_le_trans; [exact E|exact Hz]. }
      apply Forall_forall. intros z Hz.
      apply filter_In in Hz as [Hz _].
      rewrite Forall_forall in Hall. now apply Hall.
Qed.

(** Discarding items commutes with the stable sort. *)
Lemma filter_sorted_by_key (p : string * value -> bool) l :
  filter p (sorted_by_key l) = sorted_by_key (filter p l).
Proof.
  induction l as [|x l IH]; simpl; [reflexivity|].
  rewrite filter_insert_item by apply sorted_by_key_sorted.
  rewrite IH. now destruct (p x).
Qed.

(** Two sorted lists with the same items and pairwise distinct keys are
    the same list. *)
Lemma sorted_perm_unique l1 :
  forall l2,
    StronglySorted key_le l1 -> StronglySorted key_le l2 ->
    Permutation l1 l2 -> NoDup (map fst l1) -> l1 = l2.
Proof.
  induction l1 as [|x l1 IH]; intros l2 S1 S2 P ND.
  - apply Permutation_nil in P. now subst.
  - destruct l2 as [|y l2].
    { apply Permutation_sym, Permutation_nil in P. discriminate. }
    inversion S1 as [|? ? S1' F1]; subst.
    inversion S2 as [|? ? S2' F2]; subst.
    inversion ND as [|? ? Hnin ND']; subst.
    assert (Hxy : x = y).
    { assert (Hx : In x (y :: l2))
        by (eapply Permutation_in; [exact P | now left]).
      assert (Hy : In y (x :: l1))
        by (eapply Permutation_in; [apply Permutation_sym, P | now left]).
      destruct Hx as [Hx|Hx]; [now symmetry|].
      destruct Hy as [Hy|Hy]; [exact Hy|].
      exfalso. apply Hnin.
      rewrite Forall_forall in F1, F2.
      rewrite (key_le_antisym x y (F1 _ Hy) (F2 _ Hx)).
      now apply in_map. }
    subst y. f_equal.
    apply IH; auto. eapply Permutation_cons_inv; exact P.
Qed.

Lemma sorted_by_key_perm_eq (d1 d2 : dict) :
  dict_wf d1 -> Permutation d1 d2 -> sorted_by_key d1 = sorted_by_key d2.
Proof.
  intros WF P.
  apply sorted_perm_unique; try apply sorted_by_key_sorted.
  - eapply perm_trans; [apply Permutation_sym, sorted_by_key_perm|].
    eapply perm_trans; [exact P | apply sorted_by_key_perm].
  - eapply Permutation_NoDup; [|exact WF].
    apply Permutation_map, sorted_by_key_perm.
Qed.

(** The parameter string of the code is the canonical query string of the
    specification. *)
Lemma dataString_canonical (data : dict) :
  dataString data = canonical_query_string data.
Proof.
  unfold dataString, canonical_query_string.
  now rewrite filter_sorted_by_key.
Qed.

Lemma dataString_drop_None (d1 d2 : dict) (k : string) :
  dataString (d1 ++ (k, None_) :: d2) = dataString (d1 ++ d2).
Proof.
  rewrite !dataString_canonical. unfold canonical_query_string.
  now rewrite !filter_app.
Qed.

Lemma dataString_perm (d1 d2 : dict) :
  dict_wf d1 -> Permutation d1 d2 -> dataString d1 = dataString d2.
Proof.
  intros WF P. unfold dataString.
  now rewrite (sorted_by_key_perm_eq d1 d2 WF P).
Qed.

End SortFacts.


(** ** Facts about [int(text, 16)] *)

Section IntFacts.
Import Py.

Lemma hex_digit_chars (c : ascii) :
  is_hex_digit c = true ->
  is_space c = false /\ (c =? "_")%char = false /\
  (c =? "-")%char = false /\ (c =? "+")%char = false.
Proof.
  destruct c as [[] [] [] [] [] [] [] []]; vm_compute;
    intro H; try discriminate H; repeat split.
Qed.

Lemma lstrip_no_space (l : list ascii) :
  forallb (fun c => negb (is_space c)) l = true -> lstrip l = l.
Proof.
  destruct l as [|c l]; simpl; [reflexivity|].
  intro H. apply andb_true_iff in H as [H _].
  apply negb_true_iff in H. now rewrite H.
Qed.

Lemma strip_no_space (l : list ascii) :
  forallb (fun c => negb (is_space c)) l = true -> strip l = l.
Proof.
  intro H. unfold strip.
  rewrite (lstrip_no_space l H).
  rewrite lstrip_no_space; [apply rev_involutive|].
  apply forallb_forall. intros c Hc. apply in_rev in Hc.
  rewrite forallb_forall in H. now apply H.
Qed.

Lemma digits16_hex (d : list ascii) :
  forall acc,
    forallb is_hex_digit d = true ->
    digits16 false acc d =
    Some (fold_left (fun a c => (16 * a + digit_value c)%Z) d acc).
Proof.
  induction d as [|c d IH]; intros acc H; simpl; [reflexivity|].
  simpl in H. apply andb_true_iff in H as [Hc Hd].
  destruct (hex_digit_chars c Hc) as (_ & Hu & _).
  rewrite Hu. unfold digit_value. unfold is_hex_digit in Hc.
  destruct (digit16 c) as [v|]; [|discriminate].
  now apply IH.
Qed.

Lemma no_space_of_hex (d : list ascii) :
  forallb is_hex_digit d = true ->
  forallb (fun c => negb (is_space c)) d = true.
Proof.
  intro H. apply forallb_forall. intros c Hc.
  rewrite forallb_forall in H.
  destruct (hex_digit_chars c (H c Hc)) as (Hs & _).
  now rewrite Hs.
Qed.

Lemma int16_digits_hex (d : list ascii) :
  d <> [] -> forallb is_hex_digit d = true ->
  int16_digits d =
  Some (fold_left (fun a c => (16 * a + digit_value c)%Z) d 0%Z).
Proof.
  intros Hne H. destruct d as [|c d]; [congruence|].
  unfold int16_digits.
  assert (Hc : is_hex_digit c = true)
    by (simpl in H; now apply andb_true_iff in H as [H _]).
  destruct (hex_digit_chars c Hc) as (_ & Hu & _).
  rewrite Hu. now apply digits16_hex.
Qed.

Lemma hex_digit_ascii (c : ascii) :
  is_hex_digit c = true -> (N_of_ascii c <? 128)%N = true.
Proof.
  destruct c as [[] [] [] [] [] [] [] []]; vm_compute;
    intro H; try discriminate H; reflexivity.
Qed.

Lemma hex_digits_ascii (d : list ascii) :
  forallb is_hex_digit d = true -> all_ascii d = true.
Proof.
  intro H. apply forallb_forall. intros c Hc.
  rewrite forallb_forall in H. apply hex_digit_ascii, H, Hc.
Qed.

(** Valid hexadecimal is ASCII text. *)
Lemma valid_hex_ascii (s : string) :
  valid_hex s = true -> all_ascii (list_ascii_of_string s) = true.
Proof.
  unfold valid_hex, hex_digits.
  destruct (list_ascii_of_string s) as [|c0 [|c1 d]].
  - discriminate.
  - apply hex_digits_ascii.
  - destruct ((c0 =? "0") && ((c1 =? "x") || (c1 =? "X")))%char eqn:Epre.
    + intro H. destruct d as [|c2 d']; [discriminate|].
      apply andb_true_iff in Epre as [E0 E1].
      apply Ascii.eqb_eq in E0. subst c0.
      apply hex_digits_ascii in H.
      change (all_ascii ("0"%char :: c1 :: c2 :: d'))
        with ((N_of_ascii c1 <? 128)%N && all_ascii (c2 :: d')).
      rewrite H, andb_true_r.
      apply orb_true_iff in E1 as [E1|E1];
        apply Ascii.eqb_eq in E1; subst c1; reflexivity.
    + apply hex_digits_ascii.
Qed.

(** On valid hexadecimal, [int(text, 16)] returns the base-16 value of
    the digits. *)
Lemma int16_valid_hex (s : string) :
  valid_hex s = true -> int16 s = Some (hex_value s).
Proof.
  intro Hvalid. pose proof (valid_hex_ascii s Hvalid) as Hascii.
  revert Hvalid.
  unfold valid_hex, hex_value, hex_digits, int16, decimal_and_space_to_ascii.
  rewrite Hascii. clear Hascii.
  destruct (list_ascii_of_string s) as [|c0 [|c1 d]] eqn:El.
  - discriminate.
  - intro H. simpl in H. rewrite andb_true_r in H.
    destruct (hex_digit_chars c0 H) as (Hs & Hu & Hm & Hp).
    rewrite strip_no_space by (simpl; now rewrite Hs).
    unfold skip_sign. rewrite Hm, Hp. simpl skip_prefix16.
    rewrite int16_digits_hex; [reflexivity | discriminate |].
    simpl. now rewrite H.
  - destruct ((c0 =? "0") && ((c1 =? "x") || (c1 =? "X")))%char eqn:Epre.
    + intro H. destruct d as [|c2 d']; [discriminate|].
      apply andb_true_iff in Epre as [E0 E1].
      apply Ascii.eqb_eq in E0. subst c0.
      assert (Hc2 : is_hex_digit c2 = true)
        by (simpl in H; now apply andb_true_iff in H as [H _]).
      destruct (hex_digit_chars c2 Hc2) as (_ & Hu & _).
      assert (Hsp : is_space c1 = false).
      { apply orb_true_iff in E1 as [E1|E1];
          apply Ascii.eqb_eq in E1; subst c1; reflexivity. }
      rewrite strip_no_space.
      2:{ change (negb (is_space "0") && (negb (is_space c1) &&
                   forallb (fun c => negb (is_space c)) (c2 :: d')) = true).
          rewrite Hsp, (no_space_of_hex _ H). reflexivity. }
      unfold skip_sign. change ("0" =? "-")%char with false.
      change ("0" =? "+")%char with false. cbv iota beta.
      unfold skip_prefix16. rewrite Ascii.eqb_refl, E1, Hu. cbv iota beta.
      simpl andb. cbv iota.
      rewrite int16_digits_hex; [reflexivity | discriminate | exact H].
    + intro H.
      assert (Hc0 : is_hex_digit c0 = true)
        by (simpl in H; now apply andb_true_iff in H as [H _]).
      destruct (hex_digit_chars c0 Hc0) as (_ & _ & Hm & Hp).
      rewrite strip_no_space by (now apply no_space_of_hex).
      unfold skip_sign. rewrite Hm, Hp.
      unfold skip_prefix16. rewrite Epre.
      rewrite int16_digits_hex; [reflexivity | discriminate | exact H].
Qed.

Lemma hex_digit_of_byte (b : byte) :
  is_hex_digit (hex_digit (Z.shiftr (Z_of_byte b) 4)) = true /\
  is_hex_digit (hex_digit (Z_of_byte b)) = true /\
  (16 * digit_value (hex_digit (Z.shiftr (Z_of_byte b) 4)) +
   digit_value (hex_digit (Z_of_byte b)) = Z_of_byte b)%Z.
Proof. destruct b; vm_compute; repeat split. Qed.

Lemma hexlify_digits (bs : bytes) :
  forallb is_hex_digit (list_ascii_of_string (hexlify bs)) = true.
Proof.
  induction bs as [|b bs IH]; [reflexivity|].
  destruct (hex_digit_of_byte b) as (Hh & Hl & _).
  cbn [hexlify list_ascii_of_string forallb].
  now rewrite Hh, Hl, IH.
Qed.

Lemma hexlify_value (bs : bytes) :
  forall acc,
    fold_left (fun a c => (16 * a + digit_value c)%Z)
              (list_ascii_of_string (hexlify bs)) acc =
    fold_left (fun a b => (a * 256 + Z_of_byte b)%Z) bs acc.
Proof.
  induction bs as [|b bs IH]; intro acc; [reflexivity|].
  destruct (hex_digit_of_byte b) as (_ & _ & Hv).
  cbn [hexlify list_ascii_of_string fold_left].
  rewrite IH. f_equal. lia.
Qed.

(** Reading back the hexadecimal text of a digest gives its big-endian
    integer. *)
Lemma int16_HexBytes_hex (bs : bytes) :
  bs <> [] -> int16 (HexBytes_hex bs) = Some (be_int bs).
Proof.
  intro Hne.
  assert (Hd : hex_digits (HexBytes_hex bs) =
               list_ascii_of_string (hexlify bs)) by reflexivity.
  rewrite int16_valid_hex.
  - unfold hex_value. rewrite Hd. f_equal. apply hexlify_value.
  - unfold valid_hex. rewrite Hd.
    destruct bs as [|b bs]; [congruence|].
    pose proof (hexlify_digits (b :: bs)) as H.
    cbn [hexlify list_ascii_of_string] in *. exact H.
Qed.

End IntFacts.

(** ** Facts about [hex] and big-endian integers *)

Section HexFacts.
Import Py.

Let step16 := fun (a : Z) (c : ascii) => (16 * a + digit_value c)%Z.

Let chars (d : Hexadecimal.uint) : list ascii :=
  list_ascii_of_string (HexadecimalString.NilEmpty.string_of_uint d).

Lemma chars_hex_digits (d : Hexadecimal.uint) :
  forallb is_hex_digit (chars d) = true.
Proof. induction d; cbn; try reflexivity; exact IHd. Qed.

Lemma chars_value_acc (d : Hexadecimal.uint) :
  forall p : positive,
    fold_left step16 (chars d) (Zpos p) = Zpos (Pos.of_hex_uint_acc d p).
Proof.
  induction d; intro p; cbn [chars HexadecimalString.NilEmpty.string_of_uint
    list_ascii_of_string fold_left Pos.of_hex_uint_acc];
    try reflexivity;
    fold (chars d);
    match goal with
    | |- fold_left _ _ ?a = Zpos (Pos.of_hex_uint_acc _ ?q) =>
        replace a with (Zpos q)
          by (unfold step16, digit_value; cbn; lia)
    end;
    apply IHd.
Qed.

Lemma chars_value (d : Hexadecimal.uint) :
  fold_left step16 (chars d) 0%Z = Z.of_N (Pos.of_hex_uint d).
Proof.
  induction d; cbn [chars HexadecimalString.NilEmpty.string_of_uint
    list_ascii_of_string fold_left Pos.of_hex_uint];
    try reflexivity; fold (chars d);
    first [ exact IHd | apply chars_value_acc ].
Qed.

(** [int(hex(n), 16)] is [n] for a non-negative [n]. *)
Lemma int16_hex (n : Z) : (0 <= n)%Z -> int16 (hex n) = Some n.
Proof.
  intro Hn. unfold hex.
  replace (n <? 0)%Z with false by (symmetry; apply Z.ltb_ge; exact Hn).
  set (d := N.to_hex_uint (Z.abs_N n)).
  assert (Hd : d <> Hexadecimal.Nil).
  { subst d. destruct (Z.abs_N n); [discriminate|].
    apply HexadecimalPos.Unsigned.to_uint_nonnil. }
  assert (Hs : HexadecimalString.NilZero.string_of_uint d =
               HexadecimalString.NilEmpty.string_of_uint d)
    by (revert Hd; generalize d; intros d0 Hd0; destruct d0;
        [congruence | reflexivity ..]).
  rewrite Hs.
  assert (Hdigits : hex_digits
            ("0x" ++ HexadecimalString.NilEmpty.string_of_uint d) = chars d)
    by reflexivity.
  rewrite int16_valid_hex.
  - unfold hex_value. rewrite Hdigits. f_equal.
    change (fold_left step16 (chars d) 0%Z = n).
    rewrite chars_value. subst d.
    change (Pos.of_hex_uint (N.to_hex_uint (Z.abs_N n)))
      with (N.of_hex_uint (N.to_hex_uint (Z.abs_N n))).
    rewrite HexadecimalN.Unsigned.of_to. lia.
  - unfold valid_hex. rewrite Hdigits.
    pose proof (chars_hex_digits d) as H.
    destruct (chars d) eqn:E; [|exact H].
    revert Hd E. generalize d. intros d0 Hd0 E0.
    destruct d0; try congruence; discriminate E0.
Qed.

Lemma Z_of_byte_range (b : byte) : (0 <= Z_of_byte b < 256)%Z.
Proof. destruct b; vm_compute; split; congruence. Qed.

Lemma be_int_range (l : bytes) :
  (0 <= be_int l < 256 ^ Z.of_nat (List.length l))%Z.
Proof.
  unfold be_int.
  assert (H : forall l acc, (0 <= acc)%Z ->
            (0 <= fold_left (fun a b => a * 256 + Z_of_byte b) l acc
             < (acc + 1) * 256 ^ Z.of_nat (List.length l))%Z).
  { clear l. induction l as [|b l IH]; intros acc Ha.
    - cbn. lia.
    - cbn [fold_left List.length].
      pose proof (Z_of_byte_range b) as Hb.
      specialize (IH (acc * 256 + Z_of_byte b)%Z ltac:(lia)).
      rewrite Nat2Z.inj_succ, Z.pow_succ_r by lia.
      assert (0 < 256 ^ Z.of_nat (List.length l))%Z
        by (apply Z.pow_pos_nonneg; lia).
      nia. }
  specialize (H l 0%Z ltac:(lia)). lia.
Qed.

Lemma digit_value_range (c : ascii) : (0 <= digit_value c < 16)%Z.
Proof.
  unfold digit_value, digit16.
  repeat match goal with
         | |- context [if ?b then _ else _] => destruct b eqn:?
         end; lia.
Qed.

Lemma hex_value_nonneg (s : string) : (0 <= hex_value s)%Z.
Proof.
  unfold hex_value.
  assert (H : forall l acc, (0 <= acc)%Z ->
            (0 <= fold_left (fun a c => 16 * a + digit_value c) l acc)%Z).
  { induction l as [|c l IH]; intros acc Ha; cbn [fold_left]; [exact Ha|].
    apply IH. pose proof (digit_value_range c). lia. }
  apply H. lia.
Qed.

Lemma be_bytes_length (w : nat) (x : Z) : List.length (be_bytes w x) = w.
Proof. induction w; cbn; [reflexivity | now rewrite IHw]. Qed.

Lemma Z_of_byte_of_Z (z : Z) : Z_of_byte (byte_of_Z z) = (z mod 256)%Z.
Proof.
  assert (H : forallb
                (fun m => Z_of_byte (byte_of_Z (Z.of_nat m)) =? Z.of_nat m)%Z
                (seq 0 256) = true) by (vm_compute; reflexivity).
  rewrite forallb_forall in H.
  pose proof (Z.mod_pos_bound z 256 ltac:(lia)) as Hr.
  specialize (H (Z.to_nat (z mod 256))).
  rewrite Z2Nat.id in H by lia.
  assert (Hin : In (Z.to_nat (z mod 256)) (seq 0 256)) by (apply in_seq; lia).
  apply H in Hin. apply Z.eqb_eq in Hin.
  rewrite <- Hin. unfold byte_of_Z. now rewrite Z.mod_mod by lia.
Qed.

(** The bytes of [be_bytes] read back as the integer they were cut from,
    up to the width. *)
Lemma be_int_be_bytes (w : nat) (x : Z) :
  be_int (be_bytes w x) = (x mod 256 ^ Z.of_nat w)%Z.
Proof.
  unfold be_int.
  assert (H : forall w acc,
            fold_left (fun a b => a * 256 + Z_of_byte b)%Z (be_bytes w x) acc =
            (acc * 256 ^ Z.of_nat w + x mod 256 ^ Z.of_nat w)%Z).
  { clear w. induction w as [|w IH]; intro acc.
    - cbn. rewrite Z.mod_1_r. lia.
    - cbn [be_bytes fold_left]. rewrite IH, Z_of_byte_of_Z.
      rewrite Nat2Z.inj_succ, Z.pow_succ_r by lia.
      rewrite Z.shiftr_div_pow2 by lia.
      replace (2 ^ (8 * Z.of_nat w))%Z with (256 ^ Z.of_nat w)%Z
        by (change 256%Z with (2 ^ 8)%Z; rewrite <- Z.pow_mul_r by lia;
            reflexivity).
      assert (Hp : (0 < 256 ^ Z.of_nat w)%Z) by (apply Z.pow_pos_nonneg; lia).
      rewrite (Z.mul_comm 256 (256 ^ Z.of_nat w)).
      rewrite (Z.rem_mul_r x (256 ^ Z.of_nat w) 256) by lia.
      lia. }
  rewrite H. lia.
Qed.

Lemma shifted_digest_range (digest : bytes) :
  List.length digest = 32%nat ->
  (0 <= Z.shiftr (be_int digest) 5 < 2 ^ 251)%Z.
Proof.
  intro Hl. pose proof (be_int_range digest) as Hb. rewrite Hl in Hb.
  rewrite Z.shiftr_div_pow2 by lia.
  change (256 ^ Z.of_nat 32)%Z with (2 ^ 5 * 2 ^ 251)%Z in Hb.
  split.
  - apply Z.div_pos; lia.
  - apply Z.div_lt_upper_bound; lia.
Qed.

End HexFacts.

(** ** Facts about the reference collaborators *)

Section ReferenceFacts.
Import Py.
Local Open Scope Z_scope.

Lemma iota_length (rc : Z) (s : list Z) :
  List.length (Keccak.iota rc s) = List.length s.
Proof. destruct s; reflexivity. Qed.

Lemma keccak_f_length (s : list Z) :
  List.length (Keccak.keccak_f s) = 25%nat.
Proof.
  unfold Keccak.keccak_f.
  set (step := fun (s : list Z) (rc : Z) =>
                 Keccak.iota rc (Keccak.chi (Keccak.rho_pi (Keccak.theta s)))).
  assert (Hstep : forall s rc, List.length (step s rc) = 25%nat).
  { intros s0 rc. unfold step. rewrite iota_length.
    unfold Keccak.chi. now rewrite length_map. }
  assert (H : forall rcs s, List.length s = 25%nat ->
            List.length (fold_left step rcs s) = 25%nat).
  { induction rcs as [|rc rcs IH]; intros s0 Hs; cbn [fold_left];
      [exact Hs | apply IH, Hstep]. }
  remember Keccak.round_constants as rcs eqn:E.
  destruct rcs as [|rc rcs]; [discriminate E|].
  cbn [fold_left]. apply H, Hstep.
Qed.

Lemma le_bytes_length (w : nat) (x : Z) :
  List.length (Keccak.le_bytes w x) = w.
Proof. revert x. induction w; intro x; cbn; [reflexivity | now rewrite IHw]. Qed.

(** A Keccak-256 digest is 32 bytes, whatever is hashed. *)
Lemma keccak256_length (msg : bytes) :
  List.length (Keccak.keccak256 msg) = 32%nat.
Proof.
  unfold Keccak.keccak256, Keccak.sponge.
  set (blocks := chunks _ _ _).
  assert (H : forall bs s, List.length s = 25%nat ->
            List.length (fold_left Keccak.absorb bs s) = 25%nat).
  { induction bs as [|b bs IH]; intros s Hs; cbn [fold_left]; [exact Hs|].
    apply IH. unfold Keccak.absorb. apply keccak_f_length. }
  specialize (H blocks (repeat 0 25) eq_refl).
  destruct (fold_left Keccak.absorb blocks (repeat 0 25))
    as [|a [|b [|c [|d s]]]]; try discriminate H.
  cbn [firstn flat_map]. rewrite !length_app, !le_bytes_length. reflexivity.
Qed.

(** Below [2 ^ 256] the hashed bytes are the 32-byte big-endian encoding;
    from [2 ^ 256] on they are more than 32; in both cases they read back
    as the integer. *)
Lemma abi_uint256_bytes_narrow (v : Z) :
  0 <= v < 2 ^ 256 -> abi_uint256_bytes v = be_bytes 32 v.
Proof.
  intros [Hv Hlt]. unfold abi_uint256_bytes.
  assert (Hl : Z.log2 v / 8 + 1 <= 32).
  { destruct (Z.eq_dec v 0) as [->|Hn]; [vm_compute; discriminate|].
    assert (Z.log2 v < 256) by (apply Z.log2_lt_pow2; lia).
    assert (Z.log2 v / 8 < 32) by (apply Z.div_lt_upper_bound; lia).
    lia. }
  replace (Nat.max 32 (Z.to_nat (Z.log2 v / 8 + 1))) with 32%nat by lia.
  reflexivity.
Qed.

Lemma abi_uint256_bytes_wide (v : Z) :
  2 ^ 256 <= v -> (32 < List.length (abi_uint256_bytes v))%nat.
Proof.
  intro Hv. unfold abi_uint256_bytes. rewrite be_bytes_length.
  assert (256 <= Z.log2 v) by (apply Z.log2_le_pow2; lia).
  assert (32 <= Z.log2 v / 8) by (apply Z.div_le_lower_bound; lia).
  lia.
Qed.

Lemma be_int_abi_uint256_bytes (v : Z) :
  0 <= v -> be_int (abi_uint256_bytes v) = v.
Proof.
  intro Hv. unfold abi_uint256_bytes. rewrite be_int_be_bytes.
  apply Z.mod_small. split; [exact Hv|].
  set (w := Nat.max 32 (Z.to_nat (Z.log2 v / 8 + 1))).
  destruct (Z.eq_dec v 0) as [->|Hn]; [apply Z.pow_pos_nonneg; lia|].
  assert (Hlog : 0 <= Z.log2 v) by apply Z.log2_nonneg.
  assert (Hw : Z.log2 v < 8 * Z.of_nat w).
  { assert (Z.log2 v / 8 + 1 <= Z.of_nat w) by (subst w; lia).
    pose proof (Z.mul_succ_div_gt (Z.log2 v) 8 ltac:(lia)). lia. }
  change 256 with (2 ^ 8). rewrite <- Z.pow_mul_r by lia.
  apply Z.log2_lt_pow2; lia.
Qed.

(** The key helper on the hex text of a scalar below [2 ^ 251]. *)
Lemma reference_key_helper (k : Z) :
  0 <= k < 2 ^ 251 ->
  @private_key_to_public_key_pair_hex reference_collaborators (hex k) =
  match StarkCurve.public_point k with
  | Some (x, y) => Returns (hex x, hex y)
  | None =>
      Fails (if k =? 0 then "private key out of range"
             else "point at infinity")
  end.
Proof.
  intros [Hk Hlt].
  cbn [private_key_to_public_key_pair_hex reference_collaborators].
  rewrite (int16_hex k Hk).
  destruct (Z.eq_dec k 0) as [->|Hn]; [reflexivity|].
  replace (0 <? k) with true by (symmetry; apply Z.ltb_lt; lia).
  replace (k <? StarkCurve.ORDER) with true.
  - replace (k =? 0) with false by (symmetry; apply Z.eqb_neq; exact Hn).
    cbn [andb]. destruct (StarkCurve.public_point k) as [[x y]|]; reflexivity.
  - symmetry. apply Z.ltb_lt.
    assert (2 ^ 251 < StarkCurve.ORDER) by (vm_compute; reflexivity). lia.
Qed.

End ReferenceFacts.

(** ** Request signing *)

Lemma append_empty_r (s : string) : (s ++ "")%string = s.
Proof. induction s as [|c s IH]; cbn; [reflexivity | now rewrite IH]. Qed.

Lemma append_assoc (a b c : string) :
  ((a ++ b) ++ c)%string = (a ++ b ++ c)%string.
Proof. induction a as [|x a IH]; cbn; [reflexivity | now rewrite IH]. Qed.

Section Signing.
Context {C : Collaborators}.
Import Py Canonical.

(** How a method call unfolds. *)
Ltac step :=
  cbn -[sign hmac_signature message_string upper str String.append].

Ltac run :=
  unfold _get, _post, _private_request, submit, bind, get_self, emit,
    lift, call, ret, raise, update, trace, final, returned; step.

(** C1. With a secret configured, [sign] returns the base64 text of the
    HMAC-SHA256 of the UTF-8 bytes of
    [iso_timestamp + method + request_path + canonical query string],
    keyed by the base64 encoding of the UTF-8 bytes of the secret. *)
Theorem sign_hmac_of_message
  (self : HttpPrivate) (credentials : Credentials)
  (request_path method iso_timestamp : string) (data : dict) :
  api_key_credentials self = Some credentials ->
  sign self request_path method iso_timestamp data =
  Ok (decode_utf8
        (Base64.standard_b64encode
           (HMAC.hmac_sha256
              (Base64.standard_b64encode
                 (encode_utf8 (secret credentials)))
              (encode_utf8
                 (iso_timestamp ++ method ++ request_path ++
                  canonical_query_string data))))).
Proof.
  intro Hc. unfold sign, message_string.
  now rewrite Hc, dataString_canonical.
Qed.

(** C3. The parameter string that [sign] puts in the message is the
    canonical query string: the entries whose value is not null, in
    ascending order of their keys, each written as its key, [=] and the
    text of its value, with [&] between two entries.  Keys and string
    values are copied as they are, without any encoding: one entry gives
    [key=value], two give [key=value&key'=value'] with the smaller key
    first, whatever characters they hold.  A null-valued entry added
    anywhere to the parameters does not change the signature. *)
Theorem sign_canonical_query_string :
  (forall iso_timestamp method request_path data,
      message_string iso_timestamp method request_path data =
      (iso_timestamp ++ method ++ request_path ++
       canonical_query_string data)%string) /\
  (forall data,
      exists items,
        Permutation items (filter not_None data) /\
        StronglySorted key_le items /\
        canonical_query_string data =
        String.concat "&"
          (map (fun entry : string * value =>
                  (fst entry ++ "=" ++ str (snd entry))%string) items)) /\
  (forall k v,
      canonical_query_string [(k, Str v)] = (k ++ "=" ++ v)%string) /\
  (forall k v k' v',
      (k <? k')%string = true ->
      canonical_query_string [(k', Str v'); (k, Str v)] =
      (k ++ "=" ++ v ++ "&" ++ k' ++ "=" ++ v')%string) /\
  (forall self request_path method iso_timestamp d1 d2 k,
      sign self request_path method iso_timestamp (d1 ++ (k, None_) :: d2) =
      sign self request_path method iso_timestamp (d1 ++ d2)).
Proof.
  split; [|split; [|split; [|split]]].
  - intros. unfold message_string. now rewrite dataString_canonical.
  - intro data. exists (sorted_by_key (filter not_None data)).
    split; [apply Permutation_sym, sorted_by_key_perm|].
    split; [apply sorted_by_key_sorted | reflexivity].
  - intros k v. unfold canonical_query_string. cbn -[String.append].
    reflexivity.
  - intros k v k' v' Hlt. unfold canonical_query_string.
    cbn -[String.append String.ltb]. rewrite Hlt.
    cbn -[String.append]. now rewrite !append_assoc.
  - intros. unfold sign, message_string.
    now rewrite dataString_drop_None.
Qed.

(** C9. Two parameter mappings with the same entries in different
    insertion orders have the same canonical query string and, for the
    same secret, timestamp, method and path, the same signature. *)
Theorem sign_insertion_order_independent
  (self : HttpPrivate) (request_path method iso_timestamp : string)
  (d1 d2 : dict) :
  dict_wf d1 -> Permutation d1 d2 ->
  canonical_query_string d1 = canonical_query_string d2 /\
  dataString d1 = dataString d2 /\
  sign self request_path method iso_timestamp d1 =
  sign self request_path method iso_timestamp d2.
Proof.
  intros WF P.
  pose proof (dataString_perm d1 d2 WF P) as E.
  split; [now rewrite <- !dataString_canonical|].
  split; [exact E|].
  unfold sign, message_string. now rewrite E.
Qed.

(** What [_private_request] hands to the transport when credentials are
    configured. *)
Lemma private_request_sent
  (self : HttpPrivate) (credentials : Credentials)
  (method path : string) (data : dict) (headers : option dict)
  (now_iso : value) :
  api_key_credentials self = Some credentials ->
  submitted (trace (_private_request method path data headers now_iso self)) =
  [ {| req_method := method;
       req_path := endpoint self ++ path;
       req_headers :=
         Some [ ("APEX-SIGNATURE",
                 Str (hmac_signature (secret credentials)
                        (message_string (str now_iso) (upper method) path
                           data)));
                ("APEX-API-KEY", Str (key credentials));
                ("APEX-TIMESTAMP", Str (str now_iso));
                ("APEX-PASSPHRASE", Str (passphrase credentials)) ];
       req_query := data |} ].
Proof.
  intro Hc.
  assert (Hs : sign self path (upper method) (str now_iso) data =
               Ok (hmac_signature (secret credentials)
                     (message_string (str now_iso) (upper method) path data))).
  { unfold sign. now rewrite Hc. }
  run. rewrite Hc, Hs. step.
  destruct (_submit_request _); reflexivity.
Qed.

(** C7. With credentials configured, a private request goes out with
    exactly four headers: the signature, the API key, the timestamp and
    the passphrase; the timestamp header holds the very string that
    starts the signed message. *)
Theorem private_request_four_headers
  (self : HttpPrivate) (credentials : Credentials)
  (method path : string) (data : dict) (headers : option dict)
  (now_iso : value) :
  api_key_credentials self = Some credentials ->
  let timestamp := str now_iso in
  let message := message_string timestamp (upper method) path data in
  sign self path (upper method) timestamp data =
    Ok (hmac_signature (secret credentials) message) /\
  message =
    (timestamp ++ upper method ++ path ++ dataString data)%string /\
  submitted (trace (_private_request method path data headers now_iso self)) =
  [ {| req_method := method;
       req_path := endpoint self ++ path;
       req_headers :=
         Some [ ("APEX-SIGNATURE",
                 Str (hmac_signature (secret credentials) message));
                ("APEX-API-KEY", Str (key credentials));
                ("APEX-TIMESTAMP", Str timestamp);
                ("APEX-PASSPHRASE", Str (passphrase credentials)) ];
       req_query := data |} ].
Proof.
  intros Hc timestamp message.
  split; [unfold sign; now rewrite Hc|].
  split; [reflexivity|].
  now apply private_request_sent.
Qed.

(** C10. A GET issued through [_get] carries its parameters in the
    path made by [generate_query_path]; the data handed to [sign] and to
    the transport is the empty mapping, so the signed message is
    timestamp, [GET] and that path, with nothing after it. *)
Theorem get_signs_path_only
  (self : HttpPrivate) (endpoint' : string) (params : dict)
  (now_iso : value) :
  let path := generate_query_path endpoint' params in
  let message := (str now_iso ++ "GET" ++ path)%string in
  _get endpoint' params now_iso =
    _private_request "GET" path [] None now_iso /\
  dataString [] = "" /\
  message_string (str now_iso) (upper "GET") path [] = message /\
  submitted (trace (_get endpoint' params now_iso self)) =
  [ {| req_method := "GET";
       req_path := endpoint self ++ path;
       req_headers :=
         match api_key_credentials self with
         | Some credentials =>
             Some [ ("APEX-SIGNATURE",
                     Str (hmac_signature (secret credentials) message));
                    ("APEX-API-KEY", Str (key credentials));
                    ("APEX-TIMESTAMP", Str (str now_iso));
                    ("APEX-PASSPHRASE", Str (passphrase credentials)) ]
         | None => None
         end;
       req_query := [] |} ].
Proof.
  intros path message.
  assert (Hm : message_string (str now_iso) (upper "GET") path [] = message).
  { unfold message_string, message, dataString. cbn.
    now rewrite append_empty_r. }
  split; [reflexivity|]. split; [reflexivity|]. split; [exact Hm|].
  unfold _get. fold path.
  destruct (api_key_credentials self) as [credentials|] eqn:Hc.
  - rewrite (private_request_sent self credentials "GET" path [] None
               now_iso Hc).
    now rewrite Hm.
  - run. rewrite Hc. step.
    destruct (_submit_request _); reflexivity.
Qed.

End Signing.

(** ** Onboarding *)

Section Onboarding.
Context {C : Collaborators}.
Import Py Canonical.

Ltac run :=
  unfold register_user, _private_request, submit, bind, get_self, emit,
    lift, call, ret, raise, update, trace, final, returned; cbn.

(** C5.  Without a stark key, passed or stored, [register_user]
    raises the missing-key error before it calls the wallet or the
    transport; with a stark key but without a y-coordinate, passed or
    stored, it raises the missing-y-coordinate error, again before any
    call.  The object is left as it was. *)
Theorem register_user_requires_stark_key
  (self : HttpPrivate)
  (nonce starkKey y_coordinate ethereum_address referred_by_affiliate_link
     country isLpAccount eth_mul_address now_iso : value) :
  let out :=
    register_user nonce starkKey y_coordinate ethereum_address
      referred_by_affiliate_link country isLpAccount eth_mul_address
      now_iso self in
  (starkKey = None_ -> stark_public_key self = None_ ->
   out = ([], self, Raise MissingStarkKey)) /\
  (is_None (or_ starkKey (stark_public_key self)) = false ->
   y_coordinate = None_ -> stark_public_key_y_coordinate self = None_ ->
   out = ([], self, Raise MissingStarkKeyYCoordinate)).
Proof.
  cbv zeta. split.
  - intros -> Hs. run. rewrite Hs. reflexivity.
  - intros Hk -> Hy. run. rewrite Hk, Hy. reflexivity.
Qed.

(** X14.  While no API credentials are configured, the request
    that [register_user] hands to the transport carries exactly two
    headers: the wallet signature over the onboarding action and the
    Ethereum address. *)
Theorem register_user_two_headers
  (self : HttpPrivate)
  (nonce starkKey y_coordinate ethereum_address referred_by_affiliate_link
     country isLpAccount eth_mul_address now_iso : value) :
  api_key_credentials self = None ->
  let eth_address := or_ ethereum_address (default_address self) in
  let stark_key := or_ starkKey (stark_public_key self) in
  let stark_key_y :=
    or_ y_coordinate (stark_public_key_y_coordinate self) in
  let sent :=
    submitted
      (trace
         (register_user nonce starkKey y_coordinate ethereum_address
            referred_by_affiliate_link country isLpAccount eth_mul_address
            now_iso self)) in
  (forall r, In r sent ->
     exists signature,
       signer_sign self eth_address OFF_CHAIN_ONBOARDING_ACTION nonce =
         Returns signature /\
       req_headers r =
         Some [ ("APEX-SIGNATURE", Str signature);
                ("APEX-ETHEREUM-ADDRESS", eth_address) ]) /\
  (forall signature,
     is_None stark_key = false -> is_None stark_key_y = false ->
     signer_sign self eth_address OFF_CHAIN_ONBOARDING_ACTION nonce =
       Returns signature ->
     sent =
     [ {| req_method := "POST";
          req_path := endpoint self ++ URL_SUFFIX ++ "/v1/onboarding";
          req_headers :=
            Some [ ("APEX-SIGNATURE", Str signature);
                   ("APEX-ETHEREUM-ADDRESS", eth_address) ];
          req_query :=
            [ ("starkKey", stark_key);
              ("starkKeyYCoordinate", stark_key_y);
              ("referredByAffiliateLink", referred_by_affiliate_link);
              ("ethereumAddress", eth_address);
              ("country", country);
              ("category", Str "CATEGORY_API");
              ("isLpAccount", isLpAccount);
              ("ethMulAddress", eth_mul_address) ] |} ]).
Proof.
  intros Hc eth_address stark_key stark_key_y sent.
  assert (Hsent :
    sent =
    if is_None stark_key then []
    else if is_None stark_key_y then []
    else match signer_sign self eth_address OFF_CHAIN_ONBOARDING_ACTION
                 nonce with
         | Returns signature =>
             [ {| req_method := "POST";
                  req_path := endpoint self ++ URL_SUFFIX ++ "/v1/onboarding";
                  req_headers :=
                    Some [ ("APEX-SIGNATURE", Str signature);
                           ("APEX-ETHEREUM-ADDRESS", eth_address) ];
                  req_query :=
                    [ ("starkKey", stark_key);
                      ("starkKeyYCoordinate", stark_key_y);
                      ("referredByAffiliateLink", referred_by_affiliate_link);
                      ("ethereumAddress", eth_address);
                      ("country", country);
                      ("category", Str "CATEGORY_API");
                      ("isLpAccount", isLpAccount);
                      ("ethMulAddress", eth_mul_address) ] |} ]
         | Fails _ => []
         end).
  { subst sent. run. fold stark_key stark_key_y eth_address.
    destruct (is_None stark_key); [reflexivity|].
    destruct (is_None stark_key_y); [reflexivity|].
    destruct (signer_sign self eth_address OFF_CHAIN_ONBOARDING_ACTION nonce)
      as [signature|e]; [|reflexivity].
    rewrite Hc. cbn.
    destruct (_submit_request _) as [res|e]; [|reflexivity].
    cbn. destruct (data res) as [d|]; [|reflexivity].
    destruct (data_user d); cbn; [|reflexivity].
    destruct (data_account d); reflexivity. }
  split.
  - intros r Hr. rewrite Hsent in Hr.
    destruct (is_None stark_key); [contradiction|].
    destruct (is_None stark_key_y); [contradiction|].
    destruct (signer_sign self eth_address OFF_CHAIN_ONBOARDING_ACTION nonce)
      as [signature|e]; [|contradiction].
    destruct Hr as [<-|[]]. exists signature. split; reflexivity.
  - intros signature Hk Hy Hs. rewrite Hsent, Hk, Hy, Hs. reflexivity.
Qed.

End Onboarding.

(** ** Key derivation *)

Section Derivation.
Context {C : Collaborators}.
Import Py.

Ltac step := cbn -[Z.shiftr HexBytes_hex int16 hex].

Ltac run :=
  unfold derive_stark_key, int_base16, bind, get_self, emit, lift, call,
    ret, raise, update, trace, final, returned; step.

(** The outcome of [derive_stark_key] once the wallet has answered. *)
Lemma derive_stark_key_returned
  (self : HttpPrivate) (ethereum_address : value) (signature : string) :
  starkeySigner_sign_message self
    (or_ ethereum_address (default_address self))
    OFF_CHAIN_KEY_DERIVATION_ACTION = Returns signature ->
  returned (derive_stark_key ethereum_address self) =
  match int16 signature with
  | None => Raise (ValueError_int_literal signature)
  | Some signature_int =>
      match Web3_solidityKeccak ["uint256"] [signature_int] with
      | Fails e => Raise (Web3Error e)
      | Returns hashed_signature =>
          match int16 (HexBytes_hex hashed_signature) with
          | None => Raise (ValueError_int_literal
                             (HexBytes_hex hashed_signature))
          | Some hashed_int =>
              let private_key_hex := hex (Z.shiftr hashed_int 5) in
              match private_key_to_public_key_pair_hex private_key_hex with
              | Fails e => Raise (HelperError e)
              | Returns public =>
                  Ok {| public_key := fst public;
                        public_key_y_coordinate := snd public;
                        private_key := private_key_hex |}
              end
          end
      end
  end.
Proof.
  intro Hs. run. rewrite Hs. step.
  destruct (int16 signature) as [n|]; [|reflexivity]. step.
  destruct (Web3_solidityKeccak ["uint256"] [n]) as [h|e]; [|reflexivity].
  step. destruct (int16 (HexBytes_hex h)) as [k|]; [|reflexivity]. step.
  destruct (private_key_to_public_key_pair_hex _) as [pk|e]; reflexivity.
Qed.

(** C6, amended.  [derive_stark_key] raises the malformed-signature
    error exactly when [int(signature, 16)] rejects the string returned
    by the wallet; the length of the string is not looked at.  [int16]
    reads a string as [int] does: surrounding whitespace, a sign, a [0x]
    prefix, single underscores, and the decimal digits and whitespace of
    Unicode outside ASCII.  For a rejected string no key pair is
    returned. *)
Theorem derive_stark_key_malformed_signature
  (self : HttpPrivate) (ethereum_address : value) (signature : string) :
  starkeySigner_sign_message self
    (or_ ethereum_address (default_address self))
    OFF_CHAIN_KEY_DERIVATION_ACTION = Returns signature ->
  (returned (derive_stark_key ethereum_address self) =
     Raise (MalformedSignature signature)
   <-> int16 signature = None) /\
  (int16 signature = None ->
   forall pair, returned (derive_stark_key ethereum_address self) <> Ok pair).
Proof.
  intro Hs.
  rewrite (derive_stark_key_returned self ethereum_address signature Hs).
  unfold MalformedSignature.
  destruct (int16 signature) as [n|] eqn:En.
  - split; [|discriminate]. split; [|discriminate].
    destruct (Web3_solidityKeccak ["uint256"] [n]) as [h|e]; [|discriminate].
    destruct (int16 (HexBytes_hex h)) as [k|] eqn:Eh.
    + cbv zeta.
      destruct (private_key_to_public_key_pair_hex _); discriminate.
    + intro H. injection H as H. rewrite H in Eh. congruence.
  - split; [split; reflexivity|]. intros _ pair. discriminate.
Qed.

(** C8. The result of the derivation is a function of the wallet
    signature alone: two runs, on any two objects and addresses, that
    get the same signature string from the wallet end with the same
    outcome, hence with the same private key and public coordinates;
    neither run changes its object. *)
Theorem derive_stark_key_deterministic
  (self1 self2 : HttpPrivate) (address1 address2 : value)
  (signature : string) :
  starkeySigner_sign_message self1
    (or_ address1 (default_address self1))
    OFF_CHAIN_KEY_DERIVATION_ACTION = Returns signature ->
  starkeySigner_sign_message self2
    (or_ address2 (default_address self2))
    OFF_CHAIN_KEY_DERIVATION_ACTION = Returns signature ->
  returned (derive_stark_key address1 self1) =
  returned (derive_stark_key address2 self2) /\
  final (derive_stark_key address1 self1) = self1 /\
  final (derive_stark_key address2 self2) = self2.
Proof.
  intros H1 H2.
  split.
  - now rewrite (derive_stark_key_returned self1 address1 signature H1),
      (derive_stark_key_returned self2 address2 signature H2).
  - assert (Hfinal : forall self address,
               final (derive_stark_key address self) = self).
    { intros self address. run.
      destruct (starkeySigner_sign_message self _ _); [|reflexivity]. step.
      destruct (int16 _); [|reflexivity]. step.
      destruct (Web3_solidityKeccak _ _); [|reflexivity]. step.
      destruct (int16 _); [|reflexivity]. step.
      destruct (private_key_to_public_key_pair_hex _); reflexivity. }
    split; apply Hfinal.
Qed.

End Derivation.

(** C2, amended.  On a wallet signature that is valid hexadecimal,
    [derive_stark_key], with keccak and the key helper as the reference
    collaborators have them, (a) reads the signature as its base-16 integer,
    (b) hashes with Keccak-256 the big-endian bytes of that integer, which
    are the 32-byte (256-bit) encoding when the integer is below [2 ^ 256]
    and more than 32 bytes otherwise, (c) reads the 32-byte digest as an
    integer and shifts it right by 5 bits, which gives a private scalar
    below [2 ^ 251], and (d) returns the scalar in hex with the hex
    coordinates of its public point on the STARK curve; when the scalar has
    no public point, as when it is zero, the error of the key helper is
    raised. *)
Theorem derive_stark_key_hashes_uint256_bytes
  (self : HttpPrivate) (ethereum_address : Py.value) (signature : string) :
  starkeySigner_sign_message self
    (Py.or_ ethereum_address (default_address self))
    (@OFF_CHAIN_KEY_DERIVATION_ACTION reference_collaborators) =
    Returns signature ->
  valid_hex signature = true ->
  let signature_int := hex_value signature in
  let hashed_bytes := abi_uint256_bytes signature_int in
  let digest := Keccak.keccak256 hashed_bytes in
  let private_key_int := Z.shiftr (be_int digest) 5 in
  Py.int16 signature = Some signature_int /\
  be_int hashed_bytes = signature_int /\
  ((signature_int < 2 ^ 256)%Z -> hashed_bytes = be_bytes 32 signature_int) /\
  ((2 ^ 256 <= signature_int)%Z -> (32 < List.length hashed_bytes)%nat) /\
  List.length digest = 32%nat /\
  (0 <= private_key_int < 2 ^ 251)%Z /\
  returned (@derive_stark_key reference_collaborators ethereum_address self) =
  match StarkCurve.public_point private_key_int with
  | Some (x, y) =>
      Ok {| public_key := Py.hex x;
            public_key_y_coordinate := Py.hex y;
            private_key := Py.hex private_key_int |}
  | None =>
      Raise (HelperError (if (private_key_int =? 0)%Z
                          then "private key out of range"
                          else "point at infinity"))
  end.
Proof.
  intros Hs Hv signature_int hashed_bytes digest private_key_int.
  pose proof (hex_value_nonneg signature) as Hn. fold signature_int in Hn.
  pose proof (keccak256_length hashed_bytes) as Hl. fold digest in Hl.
  pose proof (shifted_digest_range digest Hl) as Hk.
  fold private_key_int in Hk.
  split; [exact (int16_valid_hex signature Hv)|].
  split; [exact (be_int_abi_uint256_bytes signature_int Hn)|].
  split; [intro Hlt; apply abi_uint256_bytes_narrow; lia|].
  split; [exact (abi_uint256_bytes_wide signature_int)|].
  split; [exact Hl|]. split; [exact Hk|].
  rewrite (@derive_stark_key_returned reference_collaborators self
             ethereum_address signature Hs).
  rewrite (int16_valid_hex signature Hv). fold signature_int.
  assert (Hw : @Web3_solidityKeccak reference_collaborators
                 ["uint256"%string] [signature_int] = Returns digest).
  { cbn [Web3_solidityKeccak reference_collaborators].
    replace (0 <=? signature_int)%Z with true
      by (symmetry; apply Z.leb_le; exact Hn).
    reflexivity. }
  rewrite Hw.
  rewrite int16_HexBytes_hex
    by (intro E; rewrite E in Hl; discriminate Hl).
  cbv zeta. fold private_key_int.
  rewrite (reference_key_helper private_key_int Hk).
  destruct (StarkCurve.public_point private_key_int) as [[x y]|]; reflexivity.
Qed.

(** ** The methods on concrete inputs *)

Import Py Canonical.

(** The scenario of the specification: secret [S], the timestamp, [GET],
    the account path and the parameter [id = 7]. *)
Lemma sign_hmac_of_message_witness :
  api_key_credentials with_credentials = Some sample_credentials /\
  sign with_credentials "/api/v1/account" "GET" "2024-01-01T00:00:00.000Z"
    [("id", Str "7")] =
  Ok (hmac_signature "S" "2024-01-01T00:00:00.000ZGET/api/v1/accountid=7").
Proof.
  split; [reflexivity|].
  apply (sign_hmac_of_message with_credentials sample_credentials).
  reflexivity.
Defined.

Lemma sign_canonical_query_string_witness :
  ("a" <? "b")%string = true /\
  canonical_query_string [("b", Str "x y&z=%"); ("a", Str "1")] =
  "a=1&b=x y&z=%".
Proof.
  split; [reflexivity|].
  exact (proj1 (proj2 (proj2 (proj2 sign_canonical_query_string)))
           "a" "1" "b" "x y&z=%" eq_refl).
Defined.

Lemma sign_insertion_order_independent_witness :
  dict_wf [("b", Int 1); ("a", Str "x")] /\
  Permutation [("b", Int 1); ("a", Str "x")] [("a", Str "x"); ("b", Int 1)] /\
  sign with_credentials "/p" "POST" "1700000000000"
    [("b", Int 1); ("a", Str "x")] =
  sign with_credentials "/p" "POST" "1700000000000"
    [("a", Str "x"); ("b", Int 1)].
Proof.
  assert (WF : dict_wf [("b", Int 1); ("a", Str "x")]).
  { unfold dict_wf. simpl. repeat constructor; simpl; intuition discriminate. }
  assert (P : Permutation [("b", Int 1); ("a", Str "x")]
                          [("a", Str "x"); ("b", Int 1)])
    by apply perm_swap.
  split; [exact WF|]. split; [exact P|].
  apply (sign_insertion_order_independent with_credentials "/p" "POST"
           "1700000000000" _ _ WF P).
Defined.

Lemma private_request_four_headers_witness :
  api_key_credentials with_credentials = Some sample_credentials /\
  submitted
    (trace (@_private_request reference_collaborators "post" "/api/v1/x"
              [("a", Int 1)] None (Int 1700000000000) with_credentials)) =
  [ {| req_method := "post";
       req_path := "https://pro.apex.exchange/api/v1/x";
       req_headers :=
         Some [ ("APEX-SIGNATURE",
                 Str (hmac_signature "S" "1700000000000POST/api/v1/xa=1"));
                ("APEX-API-KEY", Str "K");
                ("APEX-TIMESTAMP", Str "1700000000000");
                ("APEX-PASSPHRASE", Str "P") ];
       req_query := [("a", Int 1)] |} ].
Proof.
  split; [reflexivity|].
  apply (@private_request_four_headers reference_collaborators
           with_credentials sample_credentials "post" "/api/v1/x"
           [("a", Int 1)] None (Int 1700000000000)).
  reflexivity.
Defined.

(** C4.  With API credentials configured, [register_user] still asks
    the wallet for the onboarding signature and passes it, with the
    Ethereum address, as the two headers of the request; [_private_request]
    replaces them, and the one request that reaches the transport carries
    the four standard headers instead of the two. *)
Lemma register_user_with_credentials_four_headers :
  api_key_credentials with_credentials = Some sample_credentials /\
  signer_sign with_credentials (default_address with_credentials)
    "ApeX Onboarding" (Str "1") = Returns "0x1b2c" /\
  (exists request,
      trace (register_on with_credentials) =
      [ WalletSign (default_address with_credentials) "ApeX Onboarding"
          (Str "1");
        Submit request ]) /\
  map req_headers (submitted (trace (register_on with_credentials))) =
  [ Some [ ("APEX-SIGNATURE",
            Str "6C6Ix499bMHtWpIjUSv/DI6ATNW0Jgy6rr2aj1s3uUQ=");
           ("APEX-API-KEY", Str "K");
           ("APEX-TIMESTAMP", Str "1700000000000");
           ("APEX-PASSPHRASE", Str "P") ] ] /\
  map req_headers (submitted (trace (register_on with_credentials))) <>
  [ Some (onboarding_headers "0x1b2c" (default_address with_credentials)) ].
Proof.
  split; [reflexivity|]. split; [reflexivity|]. split.
  - eexists. vm_compute. reflexivity.
  - split; [vm_compute; reflexivity | vm_compute; discriminate].
Qed.

Lemma register_user_two_headers_witness :
  api_key_credentials without_credentials = None /\
  map req_headers (submitted (trace (register_on without_credentials))) =
  [ Some [ ("APEX-SIGNATURE", Str "0x1b2c");
           ("APEX-ETHEREUM-ADDRESS",
            Str "0x52908400098527886E0F7030069857D2E4169EE7") ] ].
Proof.
  split; [reflexivity|].
  destruct (@register_user_two_headers reference_collaborators
              without_credentials (Str "1") None_ None_ None_ None_ None_
              None_ None_ (Int 1700000000000) eq_refl) as [_ H].
  unfold register_on.
  rewrite (H "0x1b2c" eq_refl eq_refl eq_refl). reflexivity.
Defined.

Lemma register_user_requires_stark_key_witness :
  register_on without_keys = ([], without_keys, Raise MissingStarkKey) /\
  register_on (sample_client None (Str "0x1") None_ "0x1b2c") =
  ([], sample_client None (Str "0x1") None_ "0x1b2c",
   Raise MissingStarkKeyYCoordinate).
Proof.
  split.
  - apply (@register_user_requires_stark_key reference_collaborators
             without_keys); reflexivity.
  - apply (@register_user_requires_stark_key reference_collaborators
             (sample_client None (Str "0x1") None_ "0x1b2c")); reflexivity.
Defined.

Lemma derive_stark_key_hashes_uint256_bytes_witness :
  valid_hex sample_signature = true /\
  abi_uint256_bytes (hex_value sample_signature) =
    be_bytes 32 (hex_value sample_signature) /\
  returned (derive_on sample_signature) = Ok sample_key_pair.
Proof.
  assert (Hv : valid_hex sample_signature = true) by (vm_compute; reflexivity).
  pose proof (derive_stark_key_hashes_uint256_bytes
                (sample_client None None_ None_ sample_signature) None_
                sample_signature eq_refl Hv) as H.
  cbv zeta in H. destruct H as (_ & _ & Hnarrow & _ & _ & _ & Hr).
  split; [exact Hv|]. split.
  - apply Hnarrow. vm_compute. reflexivity.
  - unfold derive_on. rewrite Hr. vm_compute. reflexivity.
Defined.

(** The wallet signature quoted in the source (line 136) is 66 bytes
    long: its integer does not fit 256 bits, all 66 bytes are hashed, and
    the private key derived is neither the one of its low 256 bits nor
    the one of its first 32 bytes. *)
Lemma derive_stark_key_quoted_signature_wider_than_256_bits :
  valid_hex quoted_signature = true /\
  (2 ^ 256 <= hex_value quoted_signature)%Z /\
  List.length (abi_uint256_bytes (hex_value quoted_signature)) = 66%nat /\
  returned (derive_on quoted_signature) =
    Ok {| public_key :=
            "0xcdf6f2c01e915e6567e98081d037216c2c897c3dad4a2195634470c967425d";
          public_key_y_coordinate :=
            "0x3cedbd350274c0b3bae9365b2e5636b59ac6b0b38a30ebffe6383aaf02c184d";
          private_key :=
            "0x4aad37bd09775ac937914a311f2f906ec28afcfa2d9d068ab847eb6b6920bb0"
       |} /\
  hex (Z.shiftr
         (be_int (Keccak.keccak256
                    (be_bytes 32 (hex_value quoted_signature)))) 5) <>
    "0x4aad37bd09775ac937914a311f2f906ec28afcfa2d9d068ab847eb6b6920bb0" /\
  hex (Z.shiftr
         (be_int (Keccak.keccak256
                    (firstn 32 (abi_uint256_bytes
                                  (hex_value quoted_signature))))) 5) <>
    "0x4aad37bd09775ac937914a311f2f906ec28afcfa2d9d068ab847eb6b6920bb0".
Proof.
  repeat split; try (vm_compute; reflexivity); vm_compute; discriminate.
Qed.

(** Whatever length is expected of a signature, [derive_stark_key] accepts
    valid hexadecimal of another length: ["ab"] and ["abcd"] both yield a
    key pair. *)
Lemma derive_stark_key_ignores_length :
  ~ exists expected_length : nat,
      forall signature,
        returned (derive_on signature) = Raise (MalformedSignature signature)
        <-> ~ (valid_hex signature = true /\
               String.length signature = expected_length).
Proof.
  intros [n H].
  assert (Hab : returned (derive_on "ab") <> Raise (MalformedSignature "ab"))
    by (vm_compute; discriminate).
  assert (Habcd : returned (derive_on "abcd") <>
                  Raise (MalformedSignature "abcd"))
    by (vm_compute; discriminate).
  destruct (Nat.eq_dec n 2) as [->|Hn].
  - apply Habcd, H. intros [_ Hl]. discriminate Hl.
  - apply Hab, H. intros [_ Hl]. apply Hn. now rewrite <- Hl.
Qed.

Lemma derive_stark_key_malformed_signature_witness :
  int16 "0xzz" = None /\
  returned (derive_on "0xzz") = Raise (MalformedSignature "0xzz") /\
  forall pair, returned (derive_on "0xzz") <> Ok pair.
Proof.
  destruct (@derive_stark_key_malformed_signature reference_collaborators
              (sample_client None None_ None_ "0xzz") None_ "0xzz" eq_refl)
    as [Hiff Hnone].
  split; [reflexivity|]. split.
  - apply Hiff. reflexivity.
  - apply Hnone. reflexivity.
Defined.

Lemma derive_stark_key_deterministic_witness :
  returned (@derive_stark_key reference_collaborators None_
              (sample_client None None_ None_ sample_signature)) =
  returned (@derive_stark_key reference_collaborators (Str "0xabc")
              (sample_client (Some sample_credentials) (Str "0x1")
                 (Str "0x2") sample_signature)).
Proof.
  exact (proj1
           (@derive_stark_key_deterministic reference_collaborators
              (sample_client None None_ None_ sample_signature)
              (sample_client (Some sample_credentials) (Str "0x1")
                 (Str "0x2") sample_signature)
              None_ (Str "0xabc") sample_signature eq_refl eq_refl)).
Defined.

(** ** Checks of the primitives against published values *)

Example sha256_abc :
  hexlify (SHA256.sha256 (encode_utf8 "abc")) =
  "ba7816bf8f01cfea414140de5dae2223b00361a396177a9cb410ff61f20015ad".
Proof. vm_compute. reflexivity. Qed.

Example sha256_two_blocks :
  hexlify (SHA256.sha256 (encode_utf8
    "abcdbcdecdefdefgefghfghighijhijkijkljklmklmnlmnomnopnopq")) =
  "248d6a61d20638b8e5c026930c3e6039a33ce45964ff2167f6ecedd419db06c1".
Proof. vm_compute. reflexivity. Qed.

Example hmac_sha256_rfc4231_case2 :
  hexlify (HMAC.hmac_sha256 (encode_utf8 "Jefe")
             (encode_utf8 "what do ya want for nothing?")) =
  "5bdcc146bf60754e6a042426089575c75a003f089d2739839dec58b964ec3843".
Proof. vm_compute. reflexivity. Qed.

Example base64_rfc4648 :
  map (fun s => decode_utf8 (Base64.standard_b64encode (encode_utf8 s)))
      [""; "f"; "fo"; "foo"; "foob"; "fooba"; "foobar"] =
  [""; "Zg=="; "Zm8="; "Zm9v"; "Zm9vYg=="; "Zm9vYmE="; "Zm9vYmFy"].
Proof. vm_compute. reflexivity. Qed.

Example keccak256_empty :
  hexlify (Keccak.keccak256 []) =
  "c5d2460186f7233c927e7db2dcc703c0e500b653ca82273b7bfad8045d85a470".
Proof. vm_compute. reflexivity. Qed.

Example sha3_256_abc :
  hexlify (Keccak.sponge 0x06 (encode_utf8 "abc")) =
  "3a985da74fe225b2045c172d6bd390bd855f086e3e9d525b46bfe24511431532".
Proof. vm_compute. reflexivity. Qed.

Example stark_generator_on_curve :
  StarkCurve.on_curve StarkCurve.G = true /\
  StarkCurve.public_point 1 = Some StarkCurve.G /\
  StarkCurve.public_point StarkCurve.ORDER = None.
Proof. repeat split; vm_compute; reflexivity. Qed.

Example int16_literals :
  map int16 ["ff"; "0xFF"; " 0x_f_f "; "-0x10"; "+1_0"; "0x"; ""; "_1";
             "1__0"; "1_"; "0x__1"; "- 1"; "x1"; "1 2"] =
  [Some 255; Some 255; Some 255; Some (-16); Some 16; None; None; None;
   None; None; None; None; None; None]%Z.
Proof. vm_compute. reflexivity. Qed.

(** Outside ASCII: the full-width digits [U+FF11 U+FF12], a literal
    between a no-break space and an ideographic space, an Arabic-Indic
    digit before a letter, and a letter that is no digit. *)
Example int16_outside_ascii :
  map (fun b => int16 (string_of_list_byte b))
    [ [xef; xbc; x91; xef; xbc; x92];
      [xc2; xa0; x31; x32; xe3; x80; x80];
      [xd9; xa1; x61];
      [xc3; xa9] ] =
  [Some 18; Some 18; Some 26; None]%Z.
Proof. vm_compute. reflexivity. Qed.

Example hex_of_integers :
  map hex [0; 255; -255; 4096]%Z = ["0x0"; "0xff"; "-0xff"; "0x1000"].
Proof. vm_compute. reflexivity. Qed.

(** The end-to-end scenario of the specification. *)
Example sign_end_to_end :
  message_string "2024-01-01T00:00:00.000Z" "GET" "/api/v1/account"
    [("id", Str "7")] =
  "2024-01-01T00:00:00.000ZGET/api/v1/accountid=7" /\
  sign with_credentials "/api/v1/account" "GET" "2024-01-01T00:00:00.000Z"
    [("id", Str "7")] =
  Ok "oIvDZbJg1raFbOv1sCT90Wvkqv5yZEfDdPCK2kQ3WFA=".
Proof. split; vm_compute; reflexivity. Qed.

Example sign_sorts_and_drops_null :
  dataString [("b", None_); ("z", Int 5); ("a", Bool_ true); ("m", Str "x y")] =
  "a=True&m=x y&z=5".
Proof. vm_compute. reflexivity. Qed.

(** ** More about request signing *)

Lemma upper_char_idempotent (c : ascii) :
  upper_char (upper_char c) = upper_char c.
Proof. destruct c as [[] [] [] [] [] [] [] []]; reflexivity. Qed.

Lemma upper_idempotent (s : string) : upper (upper s) = upper s.
Proof.
  induction s as [|c s IH]; cbn; [reflexivity|].
  now rewrite upper_char_idempotent, IH.
Qed.

Section MoreSigning.
Context {C : Collaborators}.

Ltac step :=
  cbn -[sign hmac_signature message_string upper str String.append].

Ltac run :=
  unfold generate_nonce, _get, _post, _private_request, submit, bind,
    get_self, emit, lift, call, ret, raise, update, trace, final, returned;
  step.

(** X1. The signed message does not delimit its fields.  Two parameters
    [k=v] and [k'=v'] sign exactly like the single parameter [k] whose
    value is [v&k'=v']; and characters moved from the end of the method to
    the start of the path leave the signature unchanged. *)
Theorem sign_does_not_delimit_fields
  (self : HttpPrivate) (request_path method iso_timestamp : string)
  (k k' v v' x : string) :
  (k <? k')%string = true ->
  dataString [(k, Str v); (k', Str v')] =
    dataString [(k, Str (v ++ "&" ++ k' ++ "=" ++ v'))] /\
  sign self request_path method iso_timestamp [(k, Str v); (k', Str v')] =
    sign self request_path method iso_timestamp
      [(k, Str (v ++ "&" ++ k' ++ "=" ++ v'))] /\
  sign self (x ++ request_path) method iso_timestamp [] =
    sign self request_path (method ++ x) iso_timestamp [].
Proof.
  intro Hlt.
  assert (Hge : (k' <? k)%string = false).
  { unfold String.ltb in *. rewrite String.compare_antisym.
    destruct (k ?= k')%string; simpl; try reflexivity; discriminate. }
  assert (Hd : dataString [(k, Str v); (k', Str v')] =
               dataString [(k, Str (v ++ "&" ++ k' ++ "=" ++ v'))]).
  { unfold dataString. cbn -[String.append String.ltb].
    rewrite Hge. cbn -[String.append].
    unfold format_item. cbn -[String.append].
    now rewrite !append_assoc. }
  split; [exact Hd|]. split.
  - unfold sign, message_string. now rewrite Hd.
  - unfold sign, message_string. now rewrite !append_assoc.
Qed.

Lemma private_request_outcome
  (self : HttpPrivate) (method path : string) (data : dict)
  (headers : option dict) (now_iso : value) :
  _private_request method path data headers now_iso self =
  ([Submit (built_request self method path data headers now_iso)], self,
   match _submit_request
           (built_request self method path data headers now_iso) with
   | Returns response => Ok response
   | Fails message => Raise (TransportError message)
   end).
Proof.
  unfold built_request.
  destruct (api_key_credentials self) as [c|] eqn:Hc.
  - assert (Hs : sign self path (upper method) (str now_iso) data =
                 Ok (hmac_signature (secret c)
                       (message_string (str now_iso) (upper method) path
                          data))).
    { unfold sign. now rewrite Hc. }
    run. rewrite Hc, Hs. step.
    destruct (_submit_request _); reflexivity.
  - run. rewrite Hc. step.
    destruct (_submit_request _); reflexivity.
Qed.

(** X2. Whatever the credentials, [_private_request] hands exactly one
    request to the transport, with the method, the path under the endpoint
    and the data it was given; without credentials the headers of the
    caller pass unchanged.  The only exception it can end with is the one
    of the transport, and it leaves the object as it was. *)
Theorem private_request_submits_once
  (self : HttpPrivate) (method path : string) (data : dict)
  (headers : option dict) (now_iso : value) :
  let out := _private_request method path data headers now_iso self in
  exists r,
    submitted (trace out) = [r] /\
    req_method r = method /\
    req_path r = (endpoint self ++ path)%string /\
    req_query r = data /\
    (api_key_credentials self = None -> req_headers r = headers) /\
    (forall e, returned out = Raise e ->
       exists message,
         e = TransportError message /\ _submit_request r = Fails message) /\
    final out = self.
Proof.
  cbv zeta. rewrite private_request_outcome.
  exists (built_request self method path data headers now_iso).
  repeat split.
  - intro Hc. unfold built_request. now rewrite Hc.
  - intros e He. unfold returned in He. cbn [snd] in He.
    destruct (_submit_request _) as [res|message]; [discriminate|].
    injection He as <-. now exists message.
Qed.

(** X3. The signature is computed over the upper-cased method while the
    transport receives the method as it was passed: for a method written
    in ASCII, on which [upper] is [str.upper], a request made with
    [method] carries the same headers as one made with [method.upper()]. *)
Theorem private_request_method_case
  (self : HttpPrivate) (method path : string) (data : dict)
  (headers : option dict) (now_iso : value) :
  all_ascii (list_ascii_of_string method) = true ->
  map req_headers
    (submitted (trace (_private_request method path data headers now_iso
                         self))) =
  map req_headers
    (submitted (trace (_private_request (upper method) path data headers
                         now_iso self))) /\
  map req_method
    (submitted (trace (_private_request method path data headers now_iso
                         self))) = [method].
Proof.
  intros _. rewrite !private_request_outcome. unfold built_request.
  cbn [trace fst submitted map req_headers req_method].
  now rewrite upper_idempotent.
Qed.

(** X4. With credentials, a POST made through [_post] (and so
    [generate_nonce]) is signed over timestamp, [POST], the endpoint and
    the canonical query string of its data, while the data goes to the
    transport as given, null entries included. *)
Theorem post_signs_canonical_data
  (self : HttpPrivate) (credentials : Credentials)
  (endpoint' : string) (data : dict) (headers : option dict)
  (now_iso : value) :
  api_key_credentials self = Some credentials ->
  let message :=
    (str now_iso ++ "POST" ++ endpoint' ++ canonical_query_string data)%string
  in
  submitted (trace (_post endpoint' data headers now_iso self)) =
  [ {| req_method := "POST";
       req_path := endpoint self ++ endpoint';
       req_headers :=
         Some [ ("APEX-SIGNATURE",
                 Str (hmac_signature (secret credentials) message));
                ("APEX-API-KEY", Str (key credentials));
                ("APEX-TIMESTAMP", Str (str now_iso));
                ("APEX-PASSPHRASE", Str (passphrase credentials)) ];
       req_query := data |} ] /\
  generate_nonce data now_iso =
    _post (URL_SUFFIX ++ "/v1/generate-nonce") data None now_iso.
Proof.
  intros Hc message. split; [|reflexivity].
  unfold _post.
  rewrite (private_request_sent self credentials "POST" endpoint' data
             headers now_iso Hc).
  unfold message_string. rewrite dataString_canonical. reflexivity.
Qed.

End MoreSigning.

(** ** The shape of a signature *)

Section SignatureShape.

Lemma round_length (s : list Z) (kw : Z * Z) :
  List.length s = 8%nat -> List.length (SHA256.round s kw) = 8%nat.
Proof.
  intro H.
  do 8 (destruct s as [|? s]; [discriminate|]).
  destruct s; [reflexivity | discriminate].
Qed.

Lemma fold_round_length (l : list (Z * Z)) :
  forall s, List.length s = 8%nat ->
            List.length (fold_left SHA256.round l s) = 8%nat.
Proof.
  induction l as [|kw l IH]; intros s H; [exact H|].
  apply IH, round_length, H.
Qed.

Lemma compress_length (h : list Z) (block : bytes) :
  List.length h = 8%nat -> List.length (SHA256.compress h block) = 8%nat.
Proof.
  intro H. unfold SHA256.compress.
  rewrite length_map, length_combine, fold_round_length by exact H.
  now rewrite H.
Qed.

(** A SHA-256 digest has 32 bytes. *)
Lemma sha256_length (msg : bytes) : List.length (SHA256.sha256 msg) = 32%nat.
Proof.
  unfold SHA256.sha256.
  set (blocks := chunks _ _ _).
  assert (H : List.length (fold_left SHA256.compress blocks SHA256.H0) = 8%nat).
  { generalize SHA256.H0 (eq_refl : List.length SHA256.H0 = 8%nat).
    induction blocks as [|b blocks IH]; intros h Hh; [exact Hh|].
    apply IH, compress_length, Hh. }
  destruct (fold_left SHA256.compress blocks SHA256.H0) as [|x0 l]; [discriminate|].
  do 7 (destruct l as [|? l]; [discriminate|]).
  destruct l; [reflexivity | discriminate].
Qed.

Lemma hmac_sha256_length (k msg : bytes) :
  List.length (HMAC.hmac_sha256 k msg) = 32%nat.
Proof. unfold HMAC.hmac_sha256. apply sha256_length. Qed.

Lemma sextet_in_alphabet (n : Z) :
  In (Base64.sextet n) (encode_utf8 Base64.alphabet).
Proof.
  unfold Base64.sextet.
  assert (Hlt : (Z.to_nat (Z.land n 63) < 64)%nat).
  { change 63%Z with (Z.ones 6). rewrite Z.land_ones by lia.
    pose proof (Z.mod_pos_bound n (2 ^ 6) eq_refl). lia. }
  set (m := Z.to_nat (Z.land n 63)) in *.
  do 64 (destruct m as [|m]; [vm_compute; tauto|]).
  lia.
Qed.

Lemma standard_b64encode_chars (l : bytes) :
  Forall base64_char (Base64.standard_b64encode l).
Proof.
  assert (H : forall n l, (List.length l <= n)%nat ->
                          Forall base64_char (Base64.standard_b64encode l)).
  { clear l. induction n as [|n IH]; intros l Hl.
    - destruct l; [constructor | simpl in Hl; lia].
    - destruct l as [|a [|b [|c l]]]; cbn [Base64.standard_b64encode];
        repeat (apply Forall_cons;
                [first [left; apply sextet_in_alphabet | right; reflexivity]|]);
        try apply Forall_nil.
      apply IH. simpl in Hl. lia. }
  apply (H (List.length l)). lia.
Qed.

Lemma standard_b64encode_length_32 (l : bytes) :
  List.length l = 32%nat ->
  List.length (Base64.standard_b64encode l) = 44%nat.
Proof.
  intro H.
  do 32 (destruct l as [|? l]; [discriminate|]).
  destruct l; [reflexivity | discriminate].
Qed.

Lemma decode_utf8_length (b : bytes) :
  String.length (decode_utf8 b) = List.length b.
Proof.
  unfold decode_utf8, string_of_list_byte.
  induction b as [|x b IH]; cbn; [reflexivity | now rewrite IH].
Qed.

(** X5. Every signature that [sign] returns is 44 characters of the
    base64 alphabet (letters, digits, [+], [/] and the padding [=]),
    whatever the secret, the path, the method, the timestamp and the
    data. *)
Theorem sign_signature_shape
  (self : HttpPrivate) (request_path method iso_timestamp : string)
  (data : dict) (signature : string) :
  sign self request_path method iso_timestamp data = Ok signature ->
  String.length signature = 44%nat /\
  Forall base64_char (encode_utf8 signature).
Proof.
  unfold sign.
  destruct (api_key_credentials self) as [c|]; [|discriminate].
  intro H. injection H as <-. split.
  - rewrite decode_utf8_length.
    apply standard_b64encode_length_32, hmac_sha256_length.
  - unfold encode_utf8, decode_utf8.
    rewrite list_byte_of_string_of_list_byte.
    apply standard_b64encode_chars.
Qed.

End SignatureShape.

(** ** More about onboarding *)

Section MoreOnboarding.
Context {C : Collaborators}.

Ltac step :=
  cbn -[_private_request built_request String.append onboarding_data
        onboarding_headers].

Ltac run :=
  unfold register_user, bind, get_self, emit, lift, call, ret, raise,
    update; step.

(** What [register_user] does once a stark key and a y-coordinate are at
    hand. *)
Lemma register_user_outcome
  (self : HttpPrivate)
  (nonce starkKey y_coordinate ethereum_address referred_by_affiliate_link
     country isLpAccount eth_mul_address now_iso : value) :
  let stark_key := or_ starkKey (stark_public_key self) in
  let stark_key_y := or_ y_coordinate (stark_public_key_y_coordinate self) in
  let eth_address := or_ ethereum_address (default_address self) in
  let asked := WalletSign eth_address OFF_CHAIN_ONBOARDING_ACTION nonce in
  is_None stark_key = false -> is_None stark_key_y = false ->
  register_user nonce starkKey y_coordinate ethereum_address
    referred_by_affiliate_link country isLpAccount eth_mul_address now_iso
    self =
  match signer_sign self eth_address OFF_CHAIN_ONBOARDING_ACTION nonce with
  | Fails e => ([asked], self, Raise (WalletError e))
  | Returns signature =>
      let r :=
        built_request self "POST" (URL_SUFFIX ++ "/v1/onboarding")
          (onboarding_data stark_key stark_key_y referred_by_affiliate_link
             eth_address country isLpAccount eth_mul_address)
          (Some (onboarding_headers signature eth_address)) now_iso in
      match _submit_request r with
      | Fails message =>
          ([asked; Submit r], self, Raise (TransportError message))
      | Returns res =>
          match data res with
          | None => ([asked; Submit r], self, Ok res)
          | Some d =>
              match data_user d, data_account d with
              | None, _ => ([asked; Submit r], self, Raise (KeyError "user"))
              | Some u, None =>
                  ([asked; Submit r], set_user (Some u) self,
                   Raise (KeyError "account"))
              | Some u, Some a =>
                  ([asked; Submit r],
                   set_account (Some a) (set_user (Some u) self), Ok res)
              end
          end
      end
  end.
Proof.
  intros stark_key stark_key_y eth_address asked Hk Hy.
  run. fold stark_key stark_key_y eth_address. rewrite Hk, Hy.
  destruct (signer_sign self eth_address OFF_CHAIN_ONBOARDING_ACTION nonce)
    as [signature|e]; [|reflexivity].
  step.
  change [("starkKey", stark_key); ("starkKeyYCoordinate", stark_key_y);
          ("referredByAffiliateLink", referred_by_affiliate_link);
          ("ethereumAddress", eth_address); ("country", country);
          ("category", Str "CATEGORY_API"); ("isLpAccount", isLpAccount);
          ("ethMulAddress", eth_mul_address)]
    with (onboarding_data stark_key stark_key_y referred_by_affiliate_link
            eth_address country isLpAccount eth_mul_address).
  change [("APEX-SIGNATURE", Str signature);
          ("APEX-ETHEREUM-ADDRESS", eth_address)]
    with (onboarding_headers signature eth_address).
  rewrite private_request_outcome.
  destruct (_submit_request _) as [res|message]; [|reflexivity].
  step. destruct (data res) as [d|]; [|reflexivity].
  destruct (data_user d) as [u|]; [|reflexivity].
  step. destruct (data_account d) as [a|]; reflexivity.
Qed.

(** X6. When the wallet cannot sign, [register_user] ends with the error
    of the wallet, nothing is handed to the transport and the object is
    left as it was. *)
Theorem register_user_wallet_failure
  (self : HttpPrivate)
  (nonce starkKey y_coordinate ethereum_address referred_by_affiliate_link
     country isLpAccount eth_mul_address now_iso : value) (e : string) :
  let eth_address := or_ ethereum_address (default_address self) in
  let out :=
    register_user nonce starkKey y_coordinate ethereum_address
      referred_by_affiliate_link country isLpAccount eth_mul_address now_iso
      self in
  is_None (or_ starkKey (stark_public_key self)) = false ->
  is_None (or_ y_coordinate (stark_public_key_y_coordinate self)) = false ->
  signer_sign self eth_address OFF_CHAIN_ONBOARDING_ACTION nonce = Fails e ->
  out = ([WalletSign eth_address OFF_CHAIN_ONBOARDING_ACTION nonce], self,
         Raise (SigningUnavailable e)) /\
  submitted (trace out) = [].
Proof.
  intros eth_address out Hk Hy Hs. subst out.
  rewrite (register_user_outcome self nonce starkKey y_coordinate
             ethereum_address referred_by_affiliate_link country isLpAccount
             eth_mul_address now_iso Hk Hy).
  fold eth_address. rewrite Hs. split; reflexivity.
Qed.

(** X7. With credentials configured, [register_user] still asks the
    wallet for the onboarding signature, but the one request it sends
    carries the four standard headers, signed with the API secret over
    the onboarding data; the wallet signature and the Ethereum address
    header are not sent. *)
Theorem register_user_signed_with_api_secret
  (self : HttpPrivate) (credentials : Credentials)
  (nonce starkKey y_coordinate ethereum_address referred_by_affiliate_link
     country isLpAccount eth_mul_address now_iso : value)
  (signature : string) :
  let stark_key := or_ starkKey (stark_public_key self) in
  let stark_key_y := or_ y_coordinate (stark_public_key_y_coordinate self) in
  let eth_address := or_ ethereum_address (default_address self) in
  let path := (URL_SUFFIX ++ "/v1/onboarding")%string in
  let sent_data :=
    onboarding_data stark_key stark_key_y referred_by_affiliate_link
      eth_address country isLpAccount eth_mul_address in
  let message :=
    (str now_iso ++ "POST" ++ path ++ canonical_query_string sent_data)%string
  in
  api_key_credentials self = Some credentials ->
  is_None stark_key = false -> is_None stark_key_y = false ->
  signer_sign self eth_address OFF_CHAIN_ONBOARDING_ACTION nonce =
    Returns signature ->
  trace
    (register_user nonce starkKey y_coordinate ethereum_address
       referred_by_affiliate_link country isLpAccount eth_mul_address
       now_iso self) =
  [ WalletSign eth_address OFF_CHAIN_ONBOARDING_ACTION nonce;
    Submit
      {| req_method := "POST";
         req_path := endpoint self ++ path;
         req_headers :=
           Some [ ("APEX-SIGNATURE",
                   Str (hmac_signature (secret credentials) message));
                  ("APEX-API-KEY", Str (key credentials));
                  ("APEX-TIMESTAMP", Str (str now_iso));
                  ("APEX-PASSPHRASE", Str (passphrase credentials)) ];
         req_query := sent_data |} ].
Proof.
  intros stark_key stark_key_y eth_address path sent_data message
    Hc Hk Hy Hs.
  rewrite (register_user_outcome self nonce starkKey y_coordinate
             ethereum_address referred_by_affiliate_link country isLpAccount
             eth_mul_address now_iso Hk Hy).
  fold stark_key stark_key_y eth_address path sent_data. rewrite Hs.
  assert (Hr :
    built_request self "POST" path sent_data
      (Some (onboarding_headers signature eth_address)) now_iso =
    {| req_method := "POST";
       req_path := endpoint self ++ path;
       req_headers :=
         Some [ ("APEX-SIGNATURE",
                 Str (hmac_signature (secret credentials) message));
                ("APEX-API-KEY", Str (key credentials));
                ("APEX-TIMESTAMP", Str (str now_iso));
                ("APEX-PASSPHRASE", Str (passphrase credentials)) ];
       req_query := sent_data |}).
  { unfold built_request. rewrite Hc. unfold message_string.
    now rewrite dataString_canonical. }
  cbv zeta. rewrite Hr.
  destruct (_submit_request _) as [res|m]; [|reflexivity].
  destruct (data res) as [d|]; [|reflexivity].
  destruct (data_user d); [|reflexivity].
  destruct (data_account d); reflexivity.
Qed.

(** X8. What [register_user] stores from the response.  Without a
    payload the object is unchanged; with a payload holding a user and an
    account both are stored; a payload with a user but no account raises
    the key error after the user has been stored; a payload without a user
    raises it before anything is stored. *)
Theorem register_user_stores_response
  (self : HttpPrivate)
  (nonce starkKey y_coordinate ethereum_address referred_by_affiliate_link
     country isLpAccount eth_mul_address now_iso : value)
  (signature : string) (res : Response) :
  let stark_key := or_ starkKey (stark_public_key self) in
  let stark_key_y := or_ y_coordinate (stark_public_key_y_coordinate self) in
  let eth_address := or_ ethereum_address (default_address self) in
  let out :=
    register_user nonce starkKey y_coordinate ethereum_address
      referred_by_affiliate_link country isLpAccount eth_mul_address now_iso
      self in
  is_None stark_key = false -> is_None stark_key_y = false ->
  signer_sign self eth_address OFF_CHAIN_ONBOARDING_ACTION nonce =
    Returns signature ->
  _submit_request
    (built_request self "POST" (URL_SUFFIX ++ "/v1/onboarding")
       (onboarding_data stark_key stark_key_y referred_by_affiliate_link
          eth_address country isLpAccount eth_mul_address)
       (Some (onboarding_headers signature eth_address)) now_iso) =
    Returns res ->
  (final out, returned out) =
  match data res with
  | None => (self, Ok res)
  | Some d =>
      match data_user d, data_account d with
      | Some u, Some a =>
          (set_account (Some a) (set_user (Some u) self), Ok res)
      | Some u, None => (set_user (Some u) self, Raise (KeyError "account"))
      | None, _ => (self, Raise (KeyError "user"))
      end
  end.
Proof.
  intros stark_key stark_key_y eth_address out Hk Hy Hs Hr. subst out.
  rewrite (register_user_outcome self nonce starkKey y_coordinate
             ethereum_address referred_by_affiliate_link country isLpAccount
             eth_mul_address now_iso Hk Hy).
  fold stark_key stark_key_y eth_address. rewrite Hs. cbv zeta. rewrite Hr.
  destruct (data res) as [d|]; [|reflexivity].
  destruct (data_user d); [|reflexivity].
  destruct (data_account d); reflexivity.
Qed.

(** X9. Whatever happens, [register_user] changes nothing of the object
    but the stored user and account: endpoint, credentials, stark key,
    y-coordinate, default address and signers stay. *)
Theorem register_user_keeps_configuration
  (self : HttpPrivate)
  (nonce starkKey y_coordinate ethereum_address referred_by_affiliate_link
     country isLpAccount eth_mul_address now_iso : value) :
  let self' :=
    final (register_user nonce starkKey y_coordinate ethereum_address
             referred_by_affiliate_link country isLpAccount eth_mul_address
             now_iso self) in
  endpoint self' = endpoint self /\
  api_key_credentials self' = api_key_credentials self /\
  stark_public_key self' = stark_public_key self /\
  stark_public_key_y_coordinate self' = stark_public_key_y_coordinate self /\
  default_address self' = default_address self /\
  signer_sign self' = signer_sign self /\
  starkeySigner_sign_message self' = starkeySigner_sign_message self.
Proof.
  cbv zeta.
  destruct (is_None (or_ starkKey (stark_public_key self))) eqn:Hk.
  { run. rewrite Hk. repeat split. }
  destruct (is_None (or_ y_coordinate (stark_public_key_y_coordinate self)))
    eqn:Hy.
  { run. rewrite Hk, Hy. repeat split. }
  rewrite (register_user_outcome self nonce starkKey y_coordinate
             ethereum_address referred_by_affiliate_link country isLpAccount
             eth_mul_address now_iso Hk Hy).
  destruct (signer_sign self _ _ _); [|repeat split].
  cbv zeta. destruct (_submit_request _) as [res|m]; [|repeat split].
  destruct (data res) as [d|]; [|repeat split].
  destruct (data_user d); [|repeat split].
  destruct (data_account d); repeat split.
Qed.

(** X13. [register_user] ends with the missing-key error, before any
    call, exactly when the passed stark key is empty or absent (falsy) and
    no stark key is stored.  An empty string passed as key counts as
    absent; a stored key counts as present whenever it is not [None]. *)
Theorem register_user_missing_key_iff
  (self : HttpPrivate)
  (nonce starkKey y_coordinate ethereum_address referred_by_affiliate_link
     country isLpAccount eth_mul_address now_iso : value) :
  register_user nonce starkKey y_coordinate ethereum_address
    referred_by_affiliate_link country isLpAccount eth_mul_address now_iso
    self = ([], self, Raise MissingStarkKey)
  <-> truthy starkKey = false /\ stark_public_key self = None_.
Proof.
  assert (Hor : is_None (or_ starkKey (stark_public_key self)) = true <->
                truthy starkKey = false /\ stark_public_key self = None_).
  { unfold or_. destruct (truthy starkKey) eqn:Et.
    - split; [|intros [? _]; discriminate].
      destruct starkKey; simpl in *; discriminate.
    - split.
      + intro H. split; [reflexivity|].
        destruct (stark_public_key self); simpl in H; try discriminate.
        reflexivity.
      + intros [_ ->]. reflexivity. }
  rewrite <- Hor.
  destruct (is_None (or_ starkKey (stark_public_key self))) eqn:Hk.
  - split; [reflexivity|]. intros _. run. rewrite Hk. reflexivity.
  - split; [|discriminate]. intro H. exfalso.
    destruct (is_None (or_ y_coordinate (stark_public_key_y_coordinate self)))
      eqn:Hy.
    + revert H. run. rewrite Hk, Hy. discriminate.
    + rewrite (register_user_outcome self nonce starkKey y_coordinate
                 ethereum_address referred_by_affiliate_link country
                 isLpAccount eth_mul_address now_iso Hk Hy) in H.
      destruct (signer_sign self _ _ _); [|discriminate].
      cbv zeta in H. destruct (_submit_request _) as [res|m]; [|discriminate].
      destruct (data res) as [d|]; [|discriminate].
      destruct (data_user d); [|discriminate].
      destruct (data_account d); discriminate.
Qed.

End MoreOnboarding.

(** ** More about key derivation *)

Section MoreDerivation.
Context {C : Collaborators}.

Ltac step := cbn -[Z.shiftr HexBytes_hex int16 hex].

Ltac run :=
  unfold derive_stark_key, int_base16, bind, get_self, emit, lift, call,
    ret, raise, update, trace, final, returned; step.

(** X10. [derive_stark_key] asks the wallet once, for the key-derivation
    action at the given address or else the default one, and calls
    nothing else: no request is handed to the transport.  When the wallet
    cannot sign, its error is the outcome. *)
Theorem derive_stark_key_asks_wallet_only
  (self : HttpPrivate) (ethereum_address : value) :
  let address := or_ ethereum_address (default_address self) in
  let out := derive_stark_key ethereum_address self in
  trace out = [WalletSignMessage address OFF_CHAIN_KEY_DERIVATION_ACTION] /\
  submitted (trace out) = [] /\
  (forall e,
      starkeySigner_sign_message self address
        OFF_CHAIN_KEY_DERIVATION_ACTION = Fails e ->
      returned out = Raise (SigningUnavailable e)).
Proof.
  cbv zeta.
  assert (Ht : trace (derive_stark_key ethereum_address self) =
               [WalletSignMessage (or_ ethereum_address (default_address self))
                  OFF_CHAIN_KEY_DERIVATION_ACTION]).
  { run.
    destruct (starkeySigner_sign_message self _ _); [|reflexivity]. step.
    destruct (int16 _); [|reflexivity]. step.
    destruct (Web3_solidityKeccak _ _); [|reflexivity]. step.
    destruct (int16 _); [|reflexivity]. step.
    destruct (private_key_to_public_key_pair_hex _); reflexivity. }
  split; [exact Ht|]. split; [now rewrite Ht|].
  intros e He. run. rewrite He. reflexivity.
Qed.

(** X11. The private key that [derive_stark_key] returns is a hex
    literal that reads back, with [int(..., 16)], as the integer of the
    32-byte digest shifted right by 5 bits; that integer is non-negative
    and below [2 ^ 251]. *)
Theorem derive_stark_key_private_key_range
  (self : HttpPrivate) (ethereum_address : value)
  (signature : string) (signature_int : Z) (digest : bytes)
  (pair : StarkKeyPair) :
  starkeySigner_sign_message self
    (or_ ethereum_address (default_address self))
    OFF_CHAIN_KEY_DERIVATION_ACTION = Returns signature ->
  int16 signature = Some signature_int ->
  Web3_solidityKeccak ["uint256"] [signature_int] = Returns digest ->
  List.length digest = 32%nat ->
  returned (derive_stark_key ethereum_address self) = Ok pair ->
  int16 (private_key pair) = Some (Z.shiftr (be_int digest) 5) /\
  (0 <= Z.shiftr (be_int digest) 5 < 2 ^ 251)%Z.
Proof.
  intros Hs Hi Hk Hl Hr.
  assert (Hrange : (0 <= Z.shiftr (be_int digest) 5 < 2 ^ 251)%Z).
  { pose proof (be_int_range digest) as Hb. rewrite Hl in Hb.
    rewrite Z.shiftr_div_pow2 by lia.
    change (256 ^ Z.of_nat 32)%Z with (2 ^ 5 * 2 ^ 251)%Z in Hb.
    split.
    - apply Z.div_pos; lia.
    - apply Z.div_lt_upper_bound; lia. }
  split; [|exact Hrange].
  rewrite (derive_stark_key_returned self ethereum_address signature Hs) in Hr.
  rewrite Hi, Hk in Hr.
  rewrite int16_HexBytes_hex in Hr by (destruct digest; discriminate).
  cbv zeta in Hr.
  destruct (private_key_to_public_key_pair_hex _); [|discriminate].
  injection Hr as <-. cbn [private_key].
  apply int16_hex, Hrange.
Qed.

(** X12. The outcome of [derive_stark_key] depends on the integer that
    the signature denotes, not on how it is written: two signatures that
    [int(..., 16)] reads as the same integer (with or without [0x], in
    either letter case, with leading zeros) derive the same key pair. *)
Theorem derive_stark_key_depends_on_value
  (self1 self2 : HttpPrivate) (address1 address2 : value)
  (signature1 signature2 : string) (signature_int : Z) :
  starkeySigner_sign_message self1
    (or_ address1 (default_address self1))
    OFF_CHAIN_KEY_DERIVATION_ACTION = Returns signature1 ->
  starkeySigner_sign_message self2
    (or_ address2 (default_address self2))
    OFF_CHAIN_KEY_DERIVATION_ACTION = Returns signature2 ->
  int16 signature1 = Some signature_int ->
  int16 signature2 = Some signature_int ->
  returned (derive_stark_key address1 self1) =
  returned (derive_stark_key address2 self2).
Proof.
  intros H1 H2 E1 E2.
  rewrite (derive_stark_key_returned self1 address1 signature1 H1),
    (derive_stark_key_returned self2 address2 signature2 H2).
  now rewrite E1, E2.
Qed.

End MoreDerivation.

(** ** The further properties on concrete inputs *)

Lemma sign_does_not_delimit_fields_witness :
  ("a" <? "b")%string = true /\
  sign with_credentials "/p" "POST" "1700000000000"
    [("a", Str "1"); ("b", Str "2")] =
  sign with_credentials "/p" "POST" "1700000000000" [("a", Str "1&b=2")].
Proof.
  split; [reflexivity|].
  apply (sign_does_not_delimit_fields with_credentials "/p" "POST"
           "1700000000000" "a" "b" "1" "2" "" eq_refl).
Defined.

Lemma private_request_method_case_witness :
  all_ascii (list_ascii_of_string "post") = true /\
  map req_headers
    (submitted (trace (@_private_request reference_collaborators "post" "/p"
                         [] None (Int 1700000000000) with_credentials))) =
  map req_headers
    (submitted (trace (@_private_request reference_collaborators "POST" "/p"
                         [] None (Int 1700000000000) with_credentials))).
Proof.
  split; [reflexivity|].
  exact (proj1 (@private_request_method_case reference_collaborators
                  with_credentials "post" "/p" [] None (Int 1700000000000)
                  eq_refl)).
Defined.

Lemma post_signs_canonical_data_witness :
  api_key_credentials with_credentials = Some sample_credentials /\
  submitted
    (trace (@_post reference_collaborators "/api/v1/delete-order"
              [("id", Str "7"); ("x", None_)] None (Int 1700000000000)
              with_credentials)) =
  [ {| req_method := "POST";
       req_path := "https://pro.apex.exchange/api/v1/delete-order";
       req_headers :=
         Some [ ("APEX-SIGNATURE",
                 Str (hmac_signature "S"
                        "1700000000000POST/api/v1/delete-orderid=7"));
                ("APEX-API-KEY", Str "K");
                ("APEX-TIMESTAMP", Str "1700000000000");
                ("APEX-PASSPHRASE", Str "P") ];
       req_query := [("id", Str "7"); ("x", None_)] |} ].
Proof.
  split; [reflexivity|].
  apply (proj1
           (@post_signs_canonical_data reference_collaborators
              with_credentials sample_credentials "/api/v1/delete-order"
              [("id", Str "7"); ("x", None_)] None (Int 1700000000000)
              eq_refl)).
Defined.

Lemma sign_signature_shape_witness :
  sign with_credentials "/api/v1/account" "GET" "2024-01-01T00:00:00.000Z"
    [("id", Str "7")] = Ok "oIvDZbJg1raFbOv1sCT90Wvkqv5yZEfDdPCK2kQ3WFA=" /\
  String.length "oIvDZbJg1raFbOv1sCT90Wvkqv5yZEfDdPCK2kQ3WFA=" = 44%nat.
Proof.
  assert (H : sign with_credentials "/api/v1/account" "GET"
                "2024-01-01T00:00:00.000Z" [("id", Str "7")] =
              Ok "oIvDZbJg1raFbOv1sCT90Wvkqv5yZEfDdPCK2kQ3WFA=")
    by (vm_compute; reflexivity).
  split; [exact H|].
  exact (proj1 (sign_signature_shape _ _ _ _ _ _ H)).
Defined.

Lemma register_user_wallet_failure_witness :
  signer_sign locked_wallet_client
    (Str "0x52908400098527886E0F7030069857D2E4169EE7") "ApeX Onboarding"
    (Str "1") = Fails "wallet locked" /\
  returned (register_on locked_wallet_client) =
    Raise (SigningUnavailable "wallet locked") /\
  submitted (trace (register_on locked_wallet_client)) = [].
Proof.
  destruct (@register_user_wallet_failure reference_collaborators
              locked_wallet_client (Str "1") None_ None_ None_ None_ None_
              None_ None_ (Int 1700000000000) "wallet locked"
              eq_refl eq_refl eq_refl) as [Hout Hsent].
  split; [reflexivity|]. split; [|exact Hsent].
  unfold register_on. now rewrite Hout.
Defined.

Lemma register_user_signed_with_api_secret_witness :
  api_key_credentials with_credentials = Some sample_credentials /\
  map (fun ev => match ev with
                 | Submit r => option_map (map fst) (req_headers r)
                 | _ => None
                 end)
      (trace (register_on with_credentials)) =
  [ None;
    Some ["APEX-SIGNATURE"; "APEX-API-KEY"; "APEX-TIMESTAMP";
          "APEX-PASSPHRASE"] ].
Proof.
  split; [reflexivity|].
  unfold register_on.
  rewrite (@register_user_signed_with_api_secret reference_collaborators
             with_credentials sample_credentials (Str "1") None_ None_ None_
             None_ None_ None_ None_ (Int 1700000000000) "0x1b2c"
             eq_refl eq_refl eq_refl eq_refl).
  reflexivity.
Defined.

Lemma register_user_stores_response_witness :
  let response :=
    {| data := Some {| data_user := Some "u"; data_account := Some "a" |} |} in
  final
    (@register_user (answering_collaborators response) (Str "1") None_ None_
       None_ None_ None_ None_ None_ (Int 1700000000000)
       without_credentials) =
  set_account (Some "a") (set_user (Some "u") without_credentials).
Proof.
  cbv zeta.
  pose proof
    (@register_user_stores_response
       (answering_collaborators
          {| data := Some {| data_user := Some "u";
                             data_account := Some "a" |} |})
       without_credentials (Str "1") None_ None_ None_ None_ None_ None_
       None_ (Int 1700000000000) "0x1b2c" _ eq_refl eq_refl eq_refl eq_refl)
    as H.
  cbv zeta in H. cbn [data data_user data_account] in H.
  exact (f_equal fst H).
Defined.

Lemma register_user_missing_key_iff_witness :
  register_on (sample_client None None_ (Str "0x2") "0x1b2c") =
  ([], sample_client None None_ (Str "0x2") "0x1b2c", Raise MissingStarkKey).
Proof.
  apply (@register_user_missing_key_iff reference_collaborators
           (sample_client None None_ (Str "0x2") "0x1b2c")).
  split; reflexivity.
Defined.

Lemma derive_stark_key_private_key_range_witness :
  returned (derive_on sample_signature) = Ok sample_key_pair /\
  int16 (private_key sample_key_pair) =
  Some 0x16f836c0341220aaf4e7564a24a162647b48087b3294b94eb8331b5c5239068%Z.
Proof.
  unfold derive_on.
  assert (H : returned
                (@derive_stark_key reference_collaborators None_
                   (sample_client None None_ None_ sample_signature)) =
              Ok sample_key_pair)
    by (vm_compute; reflexivity).
  split; [exact H|].
  assert (Hi : int16 sample_signature = Some (hex_value sample_signature))
    by (vm_compute; reflexivity).
  assert (Hk : @Web3_solidityKeccak reference_collaborators ["uint256"]
                 [hex_value sample_signature] =
               Returns (Keccak.keccak256
                          (be_bytes 32 (hex_value sample_signature))))
    by (vm_compute; reflexivity).
  assert (Hl : List.length (Keccak.keccak256
                              (be_bytes 32 (hex_value sample_signature))) =
               32%nat)
    by (vm_compute; reflexivity).
  rewrite (proj1
             (@derive_stark_key_private_key_range reference_collaborators
                (sample_client None None_ None_ sample_signature) None_
                sample_signature _ _ sample_key_pair eq_refl Hi Hk Hl H)).
  vm_compute. reflexivity.
Defined.

Lemma derive_stark_key_depends_on_value_witness :
  int16 "0xAB" = Some 171%Z /\ int16 " 00ab" = Some 171%Z /\
  returned (derive_on "0xAB") = returned (derive_on " 00ab").
Proof.
  split; [reflexivity|]. split; [reflexivity|].
  apply (@derive_stark_key_depends_on_value reference_collaborators
           (sample_client None None_ None_ "0xAB")
           (sample_client None None_ None_ " 00ab") None_ None_
           "0xAB" " 00ab" 171%Z eq_refl eq_refl eq_refl eq_refl).
Defined.

Lemma private_request_submits_once_witness :
  api_key_credentials without_credentials = None /\
  map req_headers
    (submitted
       (trace (@_private_request reference_collaborators "POST" "/api/v1/x"
                 [("a", Int 1)] (Some [("H", Str "v")]) (Int 1700000000000)
                 without_credentials))) =
  [Some [("H", Str "v")]].
Proof.
  split; [reflexivity|].
  destruct (@private_request_submits_once reference_collaborators
              without_credentials "POST" "/api/v1/x" [("a", Int 1)]
              (Some [("H", Str "v")]) (Int 1700000000000))
    as (r & Hsent & _ & _ & _ & Hh & _).
  rewrite Hsent. cbn [map]. now rewrite (Hh eq_refl).
Defined.

Lemma derive_stark_key_asks_wallet_only_witness :
  starkeySigner_sign_message locked_wallet_client
    (Str "0x52908400098527886E0F7030069857D2E4169EE7") "L2 Key" =
  Fails "wallet locked" /\
  returned (@derive_stark_key reference_collaborators None_
              locked_wallet_client) =
  Raise (SigningUnavailable "wallet locked").
Proof.
  split; [reflexivity|].
  destruct (@derive_stark_key_asks_wallet_only reference_collaborators
              locked_wallet_client None_) as (_ & _ & H).
  apply H. reflexivity.
Defined.
